(** * Financial Calculations Engine: a shallow embedding and its properties

    The engine (ratios, credit score, risk assessment, cost optimisation,
    trend analysis) is a set of pure functions over JavaScript numbers.
    Numbers are modelled as IEEE 754 binary64 values, Rocq's primitive
    [float], so that every function below computes what the TypeScript
    computes, including signed zeros, infinities and NaN. *)

From Stdlib Require Import ZArith Bool List Lia Uint63 Floats.
From stdpp Require Import gmap strings.

Set Warnings "-inexact-float".
Local Open Scope float_scope.

(** ** JavaScript numbers *)

Module JS.

(** A value of type [number | undefined]. *)
Definition value := option float.

(** ToBoolean on a number: [0], [-0] and [NaN] are falsy. *)
Definition truthy (x : float) : bool := negb (is_zero x || is_nan x).

(** [x || d] on a number. *)
Definition or (x d : float) : float := if truthy x then x else d.

(** [x || d] on a possibly undefined number: [undefined] is falsy. *)
Definition or_undef (x : value) (d : float) : float :=
  match x with
  | Some v => or v d
  | None => d
  end.

(** [a >= b] and [a > b]: false as soon as one side is NaN. *)
Definition geb (a b : float) : bool := b <=? a.
Definition gtb (a b : float) : bool := b <? a.

(** [Math.max(a, b)]: NaN if either is NaN, and [+0] above [-0]. *)
Definition Math_max (a b : float) : float :=
  if is_nan a || is_nan b then nan
  else if a <? b then b
  else if b <? a then a
  else if get_sign a then b else a.

(** [Math.min(a, b)]: NaN if either is NaN, and [-0] below [+0]. *)
Definition Math_min (a b : float) : float :=
  if is_nan a || is_nan b then nan
  else if a <? b then a
  else if b <? a then b
  else if get_sign a then a else b.

Definition Math_abs (a : float) : float := abs a.

(** An integer of magnitude below [2^63] as a number. *)
Definition of_Z (z : Z) : float :=
  if (z <? 0)%Z then - of_uint63 (Uint63.of_Z (- z))
  else of_uint63 (Uint63.of_Z z).

(** [Math.round(x)]: the integer nearest to [x], ties towards [+∞];
    zeros, infinities and NaN are returned as they are, and a result
    of zero keeps the sign of [x].  The value [m * 2^e] is rounded in
    exact integer arithmetic: [floor (x + 1/2)]. *)
Definition Math_round (x : float) : float :=
  match Prim2SF x with
  | S754_finite s m e =>
      if (0 <=? e)%Z then x
      else
        let n := if s then Z.neg m else Z.pos m in
        let r := Z.shiftr (2 * n + Z.shiftl 1 (- e)) (1 - e) in
        if (r =? 0)%Z then (if s then neg_zero else zero) else of_Z r
  | _ => x
  end.

End JS.

Notation "x || d" := (JS.or x d) : float_scope.
Infix ">=?" := JS.geb (at level 70, no associativity) : float_scope.
Infix ">?" := JS.gtb (at level 70, no associativity) : float_scope.

(** ** IEEE 754 vocabulary *)

Module IEEE.

(** The result carries sign [s] and is not NaN. *)
Definition signed (s : bool) (r : spec_float) : Prop :=
  match r with
  | S754_zero s' | S754_infinity s' | S754_finite s' _ _ => s' = s
  | S754_nan => False
  end.

(** The number [1] in the specification format. *)
Definition SFone64 : spec_float := S754_finite false 4503599627370496 (-52).

(** The same number up to the sign of zero: identical, or both a zero. *)
Definition zeq (x y : float) : Prop :=
  x = y \/ (is_zero x = true /\ is_zero y = true).

(** The same number as JavaScript sees it: identical (which covers two
    NaN results), or equal under [===] (which covers [0] and [-0]). *)
Definition same_number (x y : float) : Prop :=
  x = y \/ (x =? y) = true.

End IEEE.

(** ** Data model *)

(** The fields of [interface FinancialMetrics]. *)
Inductive FinancialMetrics :=
  | assets | currentAssets | inventory | liabilities | currentLiabilities
  | equity | revenue | netIncome | operatingIncome | cogs
  | operatingExpenses | interestExpense | taxExpense | cashFlow
  | accountsReceivable | accountsPayable | debt | shortTermDebt
  | longTermDebt.

(** The fields of [interface CalculatedRatios]. *)
Inductive CalculatedRatios :=
  | currentRatio | quickRatio | cashRatio | workingCapital
  | profitMargin | operatingMargin | returnOnAssets | returnOnEquity
  | assetTurnover
  | debtToEquityRatio | debtToAssetsRatio | equityRatio
  | debtServiceCoverageRatio
  | receivablesTurnover | payablesTurnover | inventoryTurnover
  | daysInventoryOutstanding | daysReceivableOutstanding
  | daysPayableOutstanding | cashConversionCycle.

#[global] Instance FinancialMetrics_eq_dec : EqDecision FinancialMetrics.
Proof. solve_decision. Defined.

#[global] Instance CalculatedRatios_eq_dec : EqDecision CalculatedRatios.
Proof. solve_decision. Defined.

(** [Partial<T>]: an object in which every field of [T] is a number or
    absent.  [o f] is the field access [o.f]; [None] is [undefined]. *)
Definition Partial (T : Type) : Type := T -> JS.value.

(** The object literal [{}]. *)
Definition empty {T : Type} : Partial T := fun _ => None.

(** The assignment [o.f = v]. *)
Definition assign {T : Type} `{EqDecision T} (o : Partial T) (f : T) (v : float)
  : Partial T :=
  fun g => if decide (g = f) then Some v else o g.

(** A guarded assignment [if (...defined...) { o.f = v }]: the guard and
    the value are one optional number, [None] when the guard fails. *)
Definition assign_if {T : Type} `{EqDecision T} (o : Partial T) (f : T)
    (v : JS.value) : Partial T :=
  match v with
  | Some x => assign o f x
  | None => o
  end.

(** ** RatioCalculator *)

Definition calculateFinancialRatios (metrics : Partial FinancialMetrics)
  : Partial CalculatedRatios :=
  let ratios : Partial CalculatedRatios := empty in
  (* Liquidity Ratios *)
  let ratios := assign_if ratios currentRatio
    (ca ← metrics currentAssets; cl ← metrics currentLiabilities;
     Some (ca / (cl || 1))) in
  let ratios := assign_if ratios quickRatio
    (ca ← metrics currentAssets; inv ← metrics inventory;
     cl ← metrics currentLiabilities;
     let quickAssets := ca - (inv || 0) in
     Some (quickAssets / (cl || 1))) in
  let ratios := assign_if ratios workingCapital
    (ca ← metrics currentAssets; cl ← metrics currentLiabilities;
     Some (ca - cl)) in
  (* Profitability Ratios *)
  let ratios := assign_if ratios profitMargin
    (ni ← metrics netIncome; rev ← metrics revenue;
     Some ((ni / (rev || 1)) * 100)) in
  let ratios := assign_if ratios operatingMargin
    (oi ← metrics operatingIncome; rev ← metrics revenue;
     Some ((oi / (rev || 1)) * 100)) in
  let ratios := assign_if ratios returnOnAssets
    (ni ← metrics netIncome; a ← metrics assets;
     Some ((ni / (a || 1)) * 100)) in
  let ratios := assign_if ratios returnOnEquity
    (ni ← metrics netIncome; eq ← metrics equity;
     Some ((ni / (eq || 1)) * 100)) in
  let ratios := assign_if ratios assetTurnover
    (rev ← metrics revenue; a ← metrics assets;
     Some (rev / (a || 1))) in
  (* Leverage Ratios *)
  let ratios := assign_if ratios debtToEquityRatio
    (d ← metrics debt; eq ← metrics equity;
     Some (d / (eq || 1))) in
  let ratios := assign_if ratios debtToAssetsRatio
    (d ← metrics debt; a ← metrics assets;
     Some (d / (a || 1))) in
  let ratios := assign_if ratios equityRatio
    (eq ← metrics equity; a ← metrics assets;
     Some ((eq / (a || 1)) * 100)) in
  let ratios := assign_if ratios debtServiceCoverageRatio
    (oi ← metrics operatingIncome; std ← metrics shortTermDebt;
     ltd ← metrics longTermDebt;
     let totalDebtService :=
       (std || 0) + (ltd || 0) + JS.or_undef (metrics interestExpense) 0 in
     Some (oi / (totalDebtService || 1))) in
  (* Efficiency Ratios *)
  let ratios := assign_if ratios receivablesTurnover
    (rev ← metrics revenue; ar ← metrics accountsReceivable;
     Some (rev / (ar || 1))) in
  let ratios := assign_if ratios inventoryTurnover
    (c ← metrics cogs; inv ← metrics inventory;
     Some (c / (inv || 1))) in
  let ratios := assign_if ratios payablesTurnover
    (c ← metrics cogs; ap ← metrics accountsPayable;
     Some (c / (ap || 1))) in
  (* Days calculations *)
  let ratios := assign_if ratios daysInventoryOutstanding
    (it ← ratios inventoryTurnover; Some (365 / (it || 1))) in
  let ratios := assign_if ratios daysReceivableOutstanding
    (rt ← ratios receivablesTurnover; Some (365 / (rt || 1))) in
  let ratios := assign_if ratios daysPayableOutstanding
    (pt ← ratios payablesTurnover; Some (365 / (pt || 1))) in
  (* Cash Conversion Cycle *)
  let ratios := assign_if ratios cashConversionCycle
    (dio ← ratios daysInventoryOutstanding;
     dro ← ratios daysReceivableOutstanding;
     dpo ← ratios daysPayableOutstanding;
     Some ((dio || 0) + (dro || 0) - (dpo || 0))) in
  ratios.

(** An object literal with the listed fields. *)
Fixpoint object {T : Type} `{EqDecision T} (fields : list (T * float))
  : Partial T :=
  match fields with
  | [] => empty
  | (f, v) :: rest => assign (object rest) f v
  end.

(** ** CreditScorer *)

Record CreditScoreFactors := {
  liquidityScore : float;
  profitabilityScore : float;
  leverageScore : float;
  efficiencyScore : float;
  growthScore : float;
  paymentHistoryScore : float
}.

Record CreditScoreResult := {
  score : float;
  tier : string;
  factors : CreditScoreFactors
}.

(** The weighted sum held by [const score]. *)
Definition weightedScore (f : CreditScoreFactors) : float :=
  liquidityScore f * 0.2 +
  profitabilityScore f * 0.25 +
  leverageScore f * 0.25 +
  efficiencyScore f * 0.15 +
  growthScore f * 0.1 +
  paymentHistoryScore f * 0.05.

(** The [if / else if] ladder that sets [tier]. *)
Definition creditTier (score : float) : string :=
  if score >=? 80 then "excellent"
  else if score >=? 65 then "good"
  else if score >=? 50 then "fair"
  else if score >=? 35 then "poor"
  else "very_poor".

(** Each field of the mutable [factors] object is followed as a local
    variable of its own; the object is assembled where it is read.  The
    [metrics] argument is not used by the source either.  The two default
    parameters are written [None] by a caller that omits them. *)
Definition calculateCreditScore
    (ratios : Partial CalculatedRatios) (metrics : Partial FinancialMetrics)
    (paymentHistoryScore growthScore : JS.value) : CreditScoreResult :=
  let paymentHistoryScore := default 50 paymentHistoryScore in
  let growthScore := default 50 growthScore in
  let liquidityScore := 0 in
  let profitabilityScore := 0 in
  let leverageScore := 0 in
  let efficiencyScore := 0 in
  (* Liquidity Score (20% weight) *)
  let liquidityScore :=
    match ratios currentRatio with
    | Some cr =>
        if (cr >=? 1.5) && (cr <=? 3.0) then 100
        else if (cr >=? 1.0) && (cr <? 1.5) then 75
        else if (cr >=? 0.5) && (cr <? 1.0) then 40
        else JS.Math_max 0 (100 - JS.Math_abs (cr - 1.5) * 20)
    | None => liquidityScore
    end in
  (* Profitability Score (25% weight) *)
  let profitabilityScore :=
    match ratios profitMargin with
    | Some pm =>
        if pm >=? 10 then 100
        else if pm >=? 5 then 80
        else if pm >=? 0 then 60
        else JS.Math_max 0 (30 + pm * 3)
    | None => profitabilityScore
    end in
  let profitabilityScore :=
    match ratios returnOnEquity with
    | Some roe =>
        let roeScore := JS.Math_min 100 ((roe / 15) * 100) in
        (profitabilityScore + roeScore) / 2
    | None => profitabilityScore
    end in
  (* Leverage Score (25% weight) *)
  let leverageScore :=
    match ratios debtToEquityRatio with
    | Some de =>
        if de <=? 0.5 then 100
        else if de <=? 1.0 then 80
        else if de <=? 2.0 then 50
        else JS.Math_max 0 (100 - de * 20)
    | None => leverageScore
    end in
  let leverageScore :=
    match ratios debtServiceCoverageRatio with
    | Some dscr =>
        let dscScore := JS.Math_min 100 ((dscr / 2) * 100) in
        (leverageScore + dscScore) / 2
    | None => leverageScore
    end in
  (* Efficiency Score (15% weight) *)
  let efficiencyScore :=
    match ratios cashConversionCycle with
    | Some ccc =>
        if ccc <=? 30 then 100
        else if ccc <=? 60 then 80
        else if ccc <=? 90 then 60
        else JS.Math_max 0 (100 - (ccc - 30) / 2)
    | None => efficiencyScore
    end in
  let efficiencyScore :=
    match ratios assetTurnover with
    | Some ato =>
        let atorScore := JS.Math_min 100 (ato * 50) in
        (efficiencyScore + atorScore) / 2
    | None => efficiencyScore
    end in
  let factors :=
    {| liquidityScore := liquidityScore;
       profitabilityScore := profitabilityScore;
       leverageScore := leverageScore;
       efficiencyScore := efficiencyScore;
       growthScore := growthScore;
       paymentHistoryScore := paymentHistoryScore |} in
  (* Calculate weighted credit score *)
  let score := weightedScore factors in
  (* Determine credit tier *)
  let tier := creditTier score in
  {| score := JS.Math_round (score * 100) / 100;
     tier := tier;
     factors := factors |}.

(** ** RiskAssessor *)

Record RiskAssessment := {
  riskTier : string;
  riskFactors : list string;
  riskScore : float
}.

(** [o.f !== undefined && test(o.f)] *)
Definition defined_and (v : JS.value) (test : float -> bool) : bool :=
  match v with
  | Some x => test x
  | None => false
  end.

(** One rule: [if (cond) { riskFactors.push(message); riskScore += points; }]
    on the pair of the two mutable locals. *)
Definition flag (cond : bool) (message : string) (points : float)
    (st : list string * float) : list string * float :=
  if cond then (st.1 ++ [message], st.2 + points) else st.

(** The [if / else if] ladder that sets [riskTier]. *)
Definition riskTierOf (riskScore : float) : string :=
  if riskScore >=? 80 then "very_high"
  else if riskScore >=? 60 then "high"
  else if riskScore >=? 40 then "medium"
  else if riskScore >=? 20 then "low"
  else "very_low".

Definition assessFinancialRisks
    (ratios : Partial CalculatedRatios) (metrics : Partial FinancialMetrics)
  : RiskAssessment :=
  let st : list string * float := ([], 0) in
  (* Liquidity Risk *)
  let st := flag (defined_and (ratios currentRatio) (fun x => x <? 1.0))
    "Low liquidity: Current ratio below 1.0" 20 st in
  let st := flag (defined_and (ratios quickRatio) (fun x => x <? 0.5))
    "Critical liquidity: Quick ratio below 0.5" 15 st in
  (* Profitability Risk *)
  let st := flag (defined_and (ratios profitMargin) (fun x => x <? 0))
    "Negative profit margin: Business operating at a loss" 25 st in
  let st := flag (defined_and (ratios returnOnEquity) (fun x => x <? 0))
    "Negative ROE: Shareholders' equity is decreasing" 20 st in
  (* Leverage Risk *)
  let st := flag (defined_and (ratios debtToEquityRatio) (fun x => x >? 2.0))
    "High leverage: Debt-to-equity ratio exceeds 2.0" 25 st in
  let st := flag
    (defined_and (ratios debtServiceCoverageRatio) (fun x => x <? 1.0))
    "Debt service risk: Cannot cover debt obligations from operating income"
    30 st in
  (* Operational Risk *)
  let st := flag (defined_and (ratios cashConversionCycle) (fun x => x >? 120))
    "Working capital risk: Long cash conversion cycle" 15 st in
  let st := flag (defined_and (ratios inventoryTurnover) (fun x => x <? 1))
    "Inventory risk: Slow inventory turnover" 10 st in
  let '(riskFactors, riskScore) := st in
  (* Determine risk tier *)
  let riskTier := riskTierOf riskScore in
  {| riskTier := riskTier;
     riskFactors := riskFactors;
     riskScore := JS.Math_min 100 riskScore |}.

(** ** CostOptimizer *)

Inductive Priority := high | medium | low.

(** The [recommendation] text: one of the three templates of the source
    with the number that the template formats ([toFixed]) in its hole.
    The rendering of that number into digits is not modelled. *)
Inductive RecommendationText :=
  | ReduceOperatingExpenses (percent : float)
  | OptimizeCOGS (percent : float)
  | ImproveCollection (daysAboveBenchmark : float).

Record CostRecommendation := {
  category : string;
  currentValue : float;
  benchmarkValue : float;
  savingsPotential : float;
  recommendation : RecommendationText;
  priority : Priority
}.

Definition generateCostOptimizationRecommendations
    (ratios : Partial CalculatedRatios) (metrics : Partial FinancialMetrics)
    (benchmarks : gmap string float) : list CostRecommendation :=
  let recommendations : list CostRecommendation := [] in
  (* Operating Expense Optimization *)
  let recommendations :=
    match metrics operatingExpenses, metrics revenue with
    | Some opex, Some rev =>
        let operatingExpenseRatio := (opex / rev) * 100 in
        let benchmarkRatio :=
          JS.or_undef (benchmarks !! "operatingExpenseRatio") 30 in
        if operatingExpenseRatio >? benchmarkRatio then
          let savingsPotential :=
            rev * ((operatingExpenseRatio - benchmarkRatio) / 100) in
          recommendations ++
            [{| category := "Operating Expenses";
                currentValue := operatingExpenseRatio;
                benchmarkValue := benchmarkRatio;
                savingsPotential := savingsPotential;
                recommendation := ReduceOperatingExpenses
                  ((operatingExpenseRatio - benchmarkRatio) / benchmarkRatio
                   * 100);
                priority :=
                  if operatingExpenseRatio >? benchmarkRatio * 1.5
                  then high else medium |}]
        else recommendations
    | _, _ => recommendations
    end in
  (* COGS Optimization *)
  let recommendations :=
    match metrics cogs, metrics revenue with
    | Some c, Some rev =>
        let cogsRatio := (c / rev) * 100 in
        let benchmarkRatio := JS.or_undef (benchmarks !! "cogsRatio") 60 in
        if cogsRatio >? benchmarkRatio then
          let savingsPotential :=
            rev * ((cogsRatio - benchmarkRatio) / 100) in
          recommendations ++
            [{| category := "Cost of Goods Sold";
                currentValue := cogsRatio;
                benchmarkValue := benchmarkRatio;
                savingsPotential := savingsPotential;
                recommendation := OptimizeCOGS
                  ((cogsRatio - benchmarkRatio) / benchmarkRatio * 100);
                priority :=
                  if cogsRatio >? benchmarkRatio * 1.3
                  then high else medium |}]
        else recommendations
    | _, _ => recommendations
    end in
  (* Working Capital Optimization *)
  let recommendations :=
    match ratios daysReceivableOutstanding with
    | Some dro =>
        let benchmarkDRO :=
          JS.or_undef (benchmarks !! "daysReceivableOutstanding") 45 in
        if dro >? benchmarkDRO then
          let improvement := dro - benchmarkDRO in
          recommendations ++
            [{| category := "Accounts Receivable";
                currentValue := dro;
                benchmarkValue := benchmarkDRO;
                savingsPotential := 0;
                recommendation := ImproveCollection improvement;
                priority := if improvement >? 30 then high else medium |}]
        else recommendations
    | None => recommendations
    end in
  recommendations.

(** ** TrendAnalyzer *)

(** [((current - previous) / previous) * 100] *)
Definition growth (current previous : float) : float :=
  ((current - previous) / previous) * 100.

(** A guarded assignment [if (...) { trends[k] = v }] on a string-keyed
    object. *)
Definition assign_key_if (o : gmap string float) (k : string) (v : JS.value)
  : gmap string float :=
  match v with
  | Some x => <[k := x]> o
  | None => o
  end.

Definition calculateTrendAnalysis
    (currentMetrics previousMetrics : Partial FinancialMetrics)
  : gmap string float :=
  let trends : gmap string float := ∅ in
  let trends := assign_key_if trends "revenueGrowth"
    (c ← currentMetrics revenue; p ← previousMetrics revenue;
     Some (growth c p)) in
  let trends := assign_key_if trends "profitGrowth"
    (c ← currentMetrics netIncome; p ← previousMetrics netIncome;
     Some (growth c p)) in
  let trends := assign_key_if trends "assetGrowth"
    (c ← currentMetrics assets; p ← previousMetrics assets;
     Some (growth c p)) in
  let trends := assign_key_if trends "equityGrowth"
    (c ← currentMetrics equity; p ← previousMetrics equity;
     Some (growth c p)) in
  trends.

(** * The specification's statements

    Definitions that follow the words of the specification, to be compared
    with the functions above. *)

(** ** Debt service coverage *)

(** The ratio as the specification words it: each of the three debt terms
    counts as [0] when its field is absent, and the sum is replaced by [1]
    when it is [0]. *)
Definition dscr_as_stated (metrics : Partial FinancialMetrics) (oi : float)
  : float :=
  let d := default 0 (metrics shortTermDebt)
           + default 0 (metrics longTermDebt)
           + default 0 (metrics interestExpense) in
  oi / (if is_zero d then 1 else d).

Definition dscr_whenever_operatingIncome : Prop :=
  forall (metrics : Partial FinancialMetrics) (oi : float),
    metrics operatingIncome = Some oi ->
    calculateFinancialRatios metrics debtServiceCoverageRatio
    = Some (dscr_as_stated metrics oi).

(** A NaN term counts as [0]. *)
Definition nan_as_zero (x : float) : float := if is_nan x then 0 else x.

(** The ratio the code computes once [operatingIncome], [shortTermDebt]
    and [longTermDebt] are there: only [interestExpense] may be absent, a
    NaN term counts as [0], and the sum is replaced by [1] when it is [0]
    or NaN. *)
Definition dscr_amended (oi std ltd : float) (ie : JS.value) : float :=
  let d := nan_as_zero std + nan_as_zero ltd + nan_as_zero (default 0 ie) in
  oi / (if (is_zero d || is_nan d)%bool then 1 else d).

(** ** Benchmarks *)

(** [benchmarks[key] ?? dflt]: the default only for a missing key. *)
Definition benchmark_as_stated (benchmarks : gmap string float)
    (key : string) (dflt : float) : float :=
  default dflt (benchmarks !! key).

(** [benchmarks[key] || dflt]: the default for a missing key and for a
    supplied [0], [-0] or NaN. *)
Definition effective_benchmark (benchmarks : gmap string float)
    (key : string) (dflt : float) : float :=
  match benchmarks !! key with
  | Some v => if (is_zero v || is_nan v)%bool then dflt else v
  | None => dflt
  end.

(** The benchmark key and engine default behind each category. *)
Definition benchmark_of_category (category : string)
  : option (string * float) :=
  if decide (category = "Operating Expenses")
  then Some ("operatingExpenseRatio", 30)
  else if decide (category = "Cost of Goods Sold")
  then Some ("cogsRatio", 60)
  else if decide (category = "Accounts Receivable")
  then Some ("daysReceivableOutstanding", 45)
  else None.

(** Every recommendation reports, and was triggered by exceeding, the
    benchmark that [pick] selects for its category. *)
Definition benchmarks_picked_by
    (pick : gmap string float -> string -> float -> float) : Prop :=
  forall (ratios : Partial CalculatedRatios)
         (metrics : Partial FinancialMetrics) (benchmarks : gmap string float),
    Forall (fun r =>
              exists key dflt,
                benchmark_of_category (category r) = Some (key, dflt) /\
                benchmarkValue r = pick benchmarks key dflt /\
                (currentValue r >? benchmarkValue r) = true)
      (generateCostOptimizationRecommendations ratios metrics benchmarks).

(** ** Recommendations

    The three checks as the specification words them, over the benchmark
    [b] that is in force for each. *)

(** A cost of [amount] out of a revenue of [rev]: its share in percent is
    recommended on when it exceeds [b]; the saving is the revenue times the
    excess in percent, the text quotes the excess relative to [b], and the
    priority is high when the share exceeds [b * factor]. *)
Definition cost_recommendation (name : string)
    (text : float -> RecommendationText) (factor : float)
    (amount rev b : float) : list CostRecommendation :=
  let share := amount / rev * 100 in
  if share >? b then
    [{| category := name;
        currentValue := share;
        benchmarkValue := b;
        savingsPotential := rev * ((share - b) / 100);
        recommendation := text ((share - b) / b * 100);
        priority := if share >? b * factor then high else medium |}]
  else [].

(** Days receivable outstanding of [dro] are recommended on when they
    exceed [b]; there is no saving, the text quotes the days above [b], and
    the priority is high when they are more than 30. *)
Definition receivable_recommendation (dro b : float)
  : list CostRecommendation :=
  if dro >? b then
    [{| category := "Accounts Receivable";
        currentValue := dro;
        benchmarkValue := b;
        savingsPotential := 0;
        recommendation := ImproveCollection (dro - b);
        priority := if dro - b >? 30 then high else medium |}]
  else [].

(** The whole list, in the order operating expenses, cost of goods sold,
    receivables, when [pick] selects the benchmark from the mapping, the
    key and the engine default. *)
Definition recommendations_with
    (pick : gmap string float -> string -> float -> float)
    (ratios : Partial CalculatedRatios) (metrics : Partial FinancialMetrics)
    (benchmarks : gmap string float) : list CostRecommendation :=
  match metrics operatingExpenses, metrics revenue with
  | Some opex, Some rev =>
      cost_recommendation "Operating Expenses" ReduceOperatingExpenses 1.5
        opex rev (pick benchmarks "operatingExpenseRatio" 30)
  | _, _ => []
  end ++
  match metrics cogs, metrics revenue with
  | Some c, Some rev =>
      cost_recommendation "Cost of Goods Sold" OptimizeCOGS 1.3
        c rev (pick benchmarks "cogsRatio" 60)
  | _, _ => []
  end ++
  match ratios daysReceivableOutstanding with
  | Some dro =>
      receivable_recommendation dro
        (pick benchmarks "daysReceivableOutstanding" 45)
  | None => []
  end.

(** ** Savings *)

Definition savings_nonnegative (rs : list CostRecommendation) : Prop :=
  Forall (fun r => (savingsPotential r >=? 0) = true) rs.

Definition savings_always_nonnegative : Prop :=
  forall (ratios : Partial CalculatedRatios)
         (metrics : Partial FinancialMetrics) (benchmarks : gmap string float),
    savings_nonnegative
      (generateCostOptimizationRecommendations ratios metrics benchmarks).

(** [revenue], when present, is a positive finite number. *)
Definition revenue_positive_finite (metrics : Partial FinancialMetrics)
  : Prop :=
  match metrics revenue with
  | Some rev => (rev >? 0) = true /\ is_infinity rev = false
  | None => True
  end.

(** ** Risk rules *)

(** The condition of a rule: the ratio is below, or above, a bound. *)
Inductive Condition :=
  | Below (bound : float)
  | Above (bound : float).

(** A rule names the ratio it reads, its condition, its message and its
    points. *)
Record RiskRule := {
  rule_ratio : CalculatedRatios;
  rule_condition : Condition;
  rule_message : string;
  rule_points : Z
}.

(** The eight rules, in the order of the specification. *)
Definition riskRules : list RiskRule :=
  [ {| rule_ratio := currentRatio; rule_condition := Below 1;
       rule_message := "Low liquidity: Current ratio below 1.0";
       rule_points := 20 |};
    {| rule_ratio := quickRatio; rule_condition := Below 0.5;
       rule_message := "Critical liquidity: Quick ratio below 0.5";
       rule_points := 15 |};
    {| rule_ratio := profitMargin; rule_condition := Below 0;
       rule_message := "Negative profit margin: Business operating at a loss";
       rule_points := 25 |};
    {| rule_ratio := returnOnEquity; rule_condition := Below 0;
       rule_message := "Negative ROE: Shareholders' equity is decreasing";
       rule_points := 20 |};
    {| rule_ratio := debtToEquityRatio; rule_condition := Above 2;
       rule_message := "High leverage: Debt-to-equity ratio exceeds 2.0";
       rule_points := 25 |};
    {| rule_ratio := debtServiceCoverageRatio; rule_condition := Below 1;
       rule_message :=
         "Debt service risk: Cannot cover debt obligations from operating income";
       rule_points := 30 |};
    {| rule_ratio := cashConversionCycle; rule_condition := Above 120;
       rule_message := "Working capital risk: Long cash conversion cycle";
       rule_points := 15 |};
    {| rule_ratio := inventoryTurnover; rule_condition := Below 1;
       rule_message := "Inventory risk: Slow inventory turnover";
       rule_points := 10 |} ].

(** A rule is skipped when its ratio is absent, and fires when the ratio is
    there and meets the condition. *)
Definition fires (ratios : Partial CalculatedRatios) (rule : RiskRule)
  : bool :=
  match ratios (rule_ratio rule) with
  | None => false
  | Some x =>
      match rule_condition rule with
      | Below bound => x <? bound
      | Above bound => bound <? x
      end
  end.

(** The rules that fire, in order. *)
Definition triggered (ratios : Partial CalculatedRatios)
    (rules : list RiskRule) : list RiskRule :=
  List.filter (fires ratios) rules.

(** The sum of their points. *)
Definition points (rules : list RiskRule) : Z :=
  foldr Z.add 0%Z (map rule_points rules).

(** ** Credit tier *)

Definition tier_follows_returned_score : Prop :=
  forall (ratios : Partial CalculatedRatios)
         (metrics : Partial FinancialMetrics)
         (paymentHistoryScore growthScore : JS.value),
    let r := calculateCreditScore ratios metrics paymentHistoryScore
               growthScore in
    tier r = creditTier (score r).

(** ** Trend keys *)

Definition trendKeys : gset string :=
  {[ "revenueGrowth"; "profitGrowth"; "assetGrowth"; "equityGrowth" ]}.

(** * Examples from the test suite *)

Example ratios_liquidity :
  let r := calculateFinancialRatios
             (object [(currentAssets, 100000); (currentLiabilities, 50000);
                      (inventory, 20000)]) in
  r currentRatio = Some 2 /\ r quickRatio = Some 1.6 /\
  r workingCapital = Some 50000.
Proof. vm_compute. auto. Qed.

Example credit_healthy :
  let r := calculateCreditScore
             (object [(currentRatio, 2.0); (profitMargin, 15);
                      (debtToEquityRatio, 0.5); (returnOnEquity, 20);
                      (cashConversionCycle, 30); (assetTurnover, 1.5)])
             empty (Some 90) (Some 80) in
  (score r >? 80) = true /\ tier r = "excellent".
Proof. vm_compute. auto. Qed.

Example credit_struggling :
  let r := calculateCreditScore
             (object [(currentRatio, 0.5); (profitMargin, -10);
                      (debtToEquityRatio, 3.0); (returnOnEquity, -15);
                      (cashConversionCycle, 120); (assetTurnover, 0.3)])
             empty (Some 20) (Some 30) in
  (score r <? 50) = true /\ tier r = "very_poor".
Proof. vm_compute. auto. Qed.

Example risk_healthy :
  assessFinancialRisks
    (object [(currentRatio, 2.5); (quickRatio, 2.0); (profitMargin, 15);
             (debtToEquityRatio, 0.5); (debtServiceCoverageRatio, 3.0);
             (cashConversionCycle, 30); (inventoryTurnover, 8)]) empty
  = {| riskTier := "very_low"; riskFactors := []; riskScore := 0 |}.
Proof. vm_compute. reflexivity. Qed.

Example risk_struggling :
  let r := assessFinancialRisks
    (object [(currentRatio, 0.8); (quickRatio, 0.3); (profitMargin, -10);
             (debtToEquityRatio, 2.5); (debtServiceCoverageRatio, 0.5);
             (cashConversionCycle, 150); (inventoryTurnover, 0.5)]) empty in
  riskTier r = "very_high" /\ riskScore r = 100 /\ length (riskFactors r) = 7%nat.
Proof. vm_compute. auto. Qed.

Example cost_high_opex :
  let rs := generateCostOptimizationRecommendations empty
    (object [(operatingExpenses, 400000); (revenue, 1000000)])
    {[ "operatingExpenseRatio" := 25 ]} in
  (category <$> rs) = ["Operating Expenses"] /\
  (savingsPotential <$> rs) = [150000] /\ (priority <$> rs) = [high].
Proof. vm_compute. auto. Qed.

Example cost_optimal :
  generateCostOptimizationRecommendations empty
    (object [(operatingExpenses, 200000); (revenue, 1000000); (cogs, 500000)])
    {[ "operatingExpenseRatio" := 25; "cogsRatio" := 60 ]} = [].
Proof. vm_compute. reflexivity. Qed.

Example trend_revenue :
  calculateTrendAnalysis (object [(revenue, 120)]) (object [(revenue, 100)])
  = {[ "revenueGrowth" := 20 ]}.
Proof. vm_compute. reflexivity. Qed.

(** * Properties *)

(** ** Facts of binary64 arithmetic *)

Module IEEEFacts.
Import IEEE.

Section Rounding.
Variables prec emax : Z.

Lemma shr_1_nonneg mrs : (0 <= shr_m mrs)%Z -> (0 <= shr_m (shr_1 mrs))%Z.
Proof.
  destruct mrs as [m r s]; simpl.
  destruct m as [|[p|p|]|[p|p|]]; simpl; lia.
Qed.

Lemma iter_shr_1_nonneg p : forall mrs,
  (0 <= shr_m mrs)%Z -> (0 <= shr_m (SpecFloat.iter_pos shr_1 p mrs))%Z.
Proof.
  induction p as [p IH|p IH|]; intros mrs Hm; simpl.
  - apply IH, IH, shr_1_nonneg, Hm.
  - apply IH, IH, Hm.
  - apply shr_1_nonneg, Hm.
Qed.

Lemma shr_fexp_nonneg m e l :
  (0 <= m)%Z -> (0 <= shr_m (fst (shr_fexp prec emax m e l)))%Z.
Proof.
  intros Hm. unfold shr_fexp, shr.
  assert (H0 : (0 <= shr_m (shr_record_of_loc m l))%Z)
    by (destruct l as [|[]]; exact Hm).
  destruct (fexp prec emax (Zdigits2 m + e) - e)%Z; simpl; auto.
  apply iter_shr_1_nonneg, H0.
Qed.

Lemma round_nearest_even_nonneg m l :
  (0 <= m)%Z -> (0 <= round_nearest_even m l)%Z.
Proof.
  intros Hm. destruct l as [|[]]; simpl; try lia.
  destruct (Z.even m); lia.
Qed.

Lemma binary_round_aux_signed s m e l :
  (0 <= m)%Z -> signed s (binary_round_aux prec emax s m e l).
Proof.
  intros Hm. unfold binary_round_aux.
  pose proof (shr_fexp_nonneg m e l Hm) as H1.
  destruct (shr_fexp prec emax m e l) as [mrs' e']. simpl in H1.
  pose proof (shr_fexp_nonneg _ e' loc_Exact
    (round_nearest_even_nonneg _ (loc_of_shr_record mrs') H1)) as H2.
  destruct (shr_fexp prec emax _ e' loc_Exact) as [mrs'' e'']. simpl in H2.
  destruct (shr_m mrs'') as [|p|p]; simpl; [reflexivity| |lia].
  destruct (e'' <=? emax - prec)%Z; reflexivity.
Qed.

Lemma binary_round_signed s m e :
  signed s (binary_round prec emax s m e).
Proof.
  unfold binary_round.
  destruct (shl_align m e _) as [mz ez].
  apply binary_round_aux_signed. lia.
Qed.
End Rounding.

(** *** Classifying a number through its specification *)

Lemma SFcompare_refl_finite s m e :
  SFcompare (S754_finite s m e) (S754_finite s m e) = Some Eq.
Proof.
  simpl. rewrite Z.compare_refl.
  replace (Pos.compare_cont Eq m m) with Eq
    by (symmetry; apply Pos.compare_cont_refl).
  destruct s; reflexivity.
Qed.

Lemma is_nan_spec x : is_nan x = true <-> Prim2SF x = S754_nan.
Proof.
  unfold is_nan. rewrite FloatAxioms.eqb_spec. unfold SFeqb.
  destruct (Prim2SF x) as [s|s| |s m e] eqn:E.
  - simpl. split; discriminate.
  - destruct s; simpl; split; discriminate.
  - simpl. split; reflexivity.
  - rewrite SFcompare_refl_finite. simpl. split; discriminate.
Qed.

Lemma is_zero_spec x :
  is_zero x = true <-> exists s, Prim2SF x = S754_zero s.
Proof.
  unfold is_zero. rewrite FloatAxioms.eqb_spec. unfold SFeqb.
  change (Prim2SF zero) with (S754_zero false).
  destruct (Prim2SF x) as [s|s| |s m e] eqn:E; simpl.
  - split; eauto.
  - destruct s; split; try discriminate; intros [? ?]; discriminate.
  - split; try discriminate; intros [? ?]; discriminate.
  - destruct s; split; try discriminate; intros [? ?]; discriminate.
Qed.

Lemma is_infinity_spec x :
  is_infinity x = true <-> exists s, Prim2SF x = S754_infinity s.
Proof.
  unfold is_infinity. rewrite FloatAxioms.eqb_spec, FloatAxioms.abs_spec. unfold SFeqb.
  change (Prim2SF infinity) with (S754_infinity false).
  destruct (Prim2SF x) as [s|s| |s m e] eqn:E; simpl.
  - split; try discriminate; intros [? ?]; discriminate.
  - split; eauto.
  - split; try discriminate; intros [? ?]; discriminate.
  - split; try discriminate; intros [? ?]; discriminate.
Qed.

(** *** Signs of products and quotients *)

Lemma SFmul_signed sx mx ex y :
  signed false y ->
  signed sx (SF64mul (S754_finite sx mx ex) y).
Proof.
  intros Hy. destruct y as [s|s| |s m e]; simpl in Hy; subst;
    try contradiction; simpl.
  - apply xorb_false_r.
  - apply xorb_false_r.
  - rewrite xorb_false_r. apply binary_round_aux_signed. lia.
Qed.

Lemma div_eucl_quot_nonneg a b :
  (0 <= a)%Z -> (0 < b)%Z -> (0 <= fst (Z.div_eucl a b))%Z.
Proof.
  intros Ha Hb. change (fst (Z.div_eucl a b)) with (a / b)%Z.
  apply Z.div_pos; assumption.
Qed.

Lemma SFdiv_signed x sy my ey :
  signed false x ->
  signed sy (SF64div x (S754_finite sy my ey)).
Proof.
  intros Hx. destruct x as [s|s| |s m e]; simpl in Hx; subst;
    try contradiction; simpl; try reflexivity.
  unfold SFdiv_core_binary.
  set (e' := Z.min _ _). set (m' := match (_ - _ - e')%Z with Z0 => _ | Zpos _ => _ | Zneg _ => _ end).
  assert (Hm' : (0 <= m')%Z).
  { subst m'. destruct (_ - _ - e')%Z; try lia.
    apply Z.shiftl_nonneg. lia. }
  pose proof (div_eucl_quot_nonneg m' (Zpos my) Hm' ltac:(lia)) as Hq.
  destruct (Z.div_eucl m' (Zpos my)) as [q r]. simpl in Hq.
  apply binary_round_aux_signed. exact Hq.
Qed.

Lemma signed_false_nonneg r :
  signed false r -> SFleb (S754_zero false) r = true.
Proof.
  destruct r as [s|s| |s m e]; simpl; intros H; subst; try reflexivity.
  contradiction.
Qed.

(** *** Mantissas, digits and alignment *)

Lemma digits2_pos_bounds m :
  (2 ^ (Zpos (digits2_pos m) - 1) <= Zpos m < 2 ^ Zpos (digits2_pos m))%Z.
Proof.
  induction m as [p IH|p IH|]; simpl digits2_pos.
  - rewrite Pos2Z.inj_succ.
    replace (Z.succ (Zpos (digits2_pos p)) - 1)%Z
      with (Z.succ (Zpos (digits2_pos p) - 1)) by lia.
    rewrite !Z.pow_succ_r by lia. lia.
  - rewrite Pos2Z.inj_succ.
    replace (Z.succ (Zpos (digits2_pos p)) - 1)%Z
      with (Z.succ (Zpos (digits2_pos p) - 1)) by lia.
    rewrite !Z.pow_succ_r by lia. lia.
  - simpl. lia.
Qed.

Lemma iter_xO_value d : forall m,
  Zpos (Pos.iter xO m d) = (Zpos m * 2 ^ Zpos d)%Z.
Proof.
  induction d as [|d IH] using Pos.peano_ind; intros m.
  - simpl. lia.
  - rewrite Pos.iter_succ, Pos2Z.inj_succ, Z.pow_succ_r by lia.
    rewrite Pos2Z.inj_xO, IH. lia.
Qed.

Lemma shl_align_value m e e' :
  (e' <= e)%Z ->
  Zpos (fst (shl_align m e e')) = (Zpos m * 2 ^ (e - e'))%Z.
Proof.
  intros Hle. unfold shl_align.
  destruct (e' - e)%Z as [|d|d] eqn:E; cbn [fst].
  - replace (e - e')%Z with 0%Z by lia. rewrite Z.pow_0_r. lia.
  - lia.
  - rewrite iter_xO_value. f_equal. f_equal.
    pose proof (Pos2Z.opp_pos d). lia.
Qed.

(** A valid finite binary64 number: the exponent is at least [emin],
    the mantissa has at most 53 digits, and exactly 53 above [emin]. *)
Lemma bounded_canonical m e :
  bounded prec emax m e = true ->
  (-1074 <= e)%Z /\ (Zpos (digits2_pos m) <= 53)%Z /\
  ((-1074 < e)%Z -> Zpos (digits2_pos m) = 53%Z) /\ (e <= 971)%Z.
Proof.
  unfold bounded, canonical_mantissa, fexp, SpecFloat.emin, prec, emax.
  intros H. apply andb_true_iff in H as [H1 H2].
  apply Z.eqb_eq in H1. apply Z.leb_le in H2. lia.
Qed.

(** With a larger exponent comes a larger magnitude. *)
Lemma aligned_lt mx ex my ey :
  bounded prec emax mx ex = true -> bounded prec emax my ey = true ->
  (ey < ex)%Z ->
  (Zpos my < Zpos mx * 2 ^ (ex - ey))%Z.
Proof.
  intros Hx Hy Hlt.
  apply bounded_canonical in Hx as (Hx1 & Hx2 & Hx3 & _).
  apply bounded_canonical in Hy as (Hy1 & Hy2 & _ & _).
  pose proof (digits2_pos_bounds mx) as Bx.
  pose proof (digits2_pos_bounds my) as By.
  rewrite Hx3 in Bx by lia. simpl (53 - 1)%Z in Bx.
  assert (Hy53 : (2 ^ Zpos (digits2_pos my) <= 2 ^ 53)%Z)
    by (apply Z.pow_le_mono_r; lia).
  assert (H2 : (2 ^ 1 <= 2 ^ (ex - ey))%Z)
    by (apply Z.pow_le_mono_r; lia).
  change (2 ^ 1)%Z with 2%Z in H2.
  change (2 ^ 53)%Z with (2 * 2 ^ 52)%Z in Hy53.
  nia.
Qed.

(** *** The sign of a difference *)

Lemma binary_normalize_pos_signed m e :
  (0 < m)%Z -> signed false (binary_normalize prec emax m e false).
Proof.
  intros Hm. destruct m as [|p|p]; try lia. simpl.
  apply binary_round_signed.
Qed.

Lemma SFsub_signed x y :
  valid_binary x = true -> valid_binary y = true ->
  SFltb y x = true -> signed false (SF64sub x y).
Proof.
  intros Vx Vy. unfold SFltb.
  destruct x as [sx|sx| |sx mx ex], y as [sy|sy| |sy my ey]; simpl;
    try discriminate;
    try (destruct sx; discriminate);
    try (destruct sy; discriminate);
    try (destruct sx, sy; simpl; (discriminate || reflexivity)).
  simpl in Vx, Vy. intros Hlt.
  apply binary_normalize_pos_signed.
  destruct (Z.compare_spec ey ex) as [Heq|Hl|Hg].
  - subst ey. rewrite Z.min_id.
    rewrite !shl_align_value by lia. rewrite Z.sub_diag, Z.pow_0_r.
    change (Pos.compare_cont Eq my mx) with (Pos.compare my mx) in Hlt.
    destruct (Pos.compare_spec my mx) as [Hc|Hc|Hc];
      destruct sy, sx; simpl in Hlt; cbn [cond_Zopp]; try discriminate; lia.
  - rewrite Z.min_r by lia.
    rewrite !shl_align_value by lia. rewrite Z.sub_diag, Z.pow_0_r.
    pose proof (aligned_lt mx ex my ey Vx Vy Hl) as Hal.
    destruct sy, sx; simpl in Hlt; cbn [cond_Zopp]; try discriminate; lia.
  - rewrite Z.min_l by lia.
    rewrite !shl_align_value by lia. rewrite Z.sub_diag, Z.pow_0_r.
    pose proof (aligned_lt my ey mx ex Vy Vx ltac:(lia)) as Hal.
    destruct sy, sx; simpl in Hlt; cbn [cond_Zopp]; try discriminate; lia.
Qed.

(** *** Division by one *)

Lemma shr_fexp_exact_noshift m e :
  fexp prec emax (Zdigits2 (Zpos m) + e) = e ->
  shr_fexp prec emax (Zpos m) e loc_Exact =
    ({| shr_m := Zpos m; shr_r := false; shr_s := false |}, e).
Proof.
  intros H. unfold shr_fexp. rewrite H, Z.sub_diag. reflexivity.
Qed.

Lemma bounded_fexp m e :
  bounded prec emax m e = true ->
  fexp prec emax (Zdigits2 (Zpos m) + e) = e /\ (e <=? emax - prec)%Z = true.
Proof.
  unfold bounded, canonical_mantissa. intros H.
  apply andb_true_iff in H as [H1 H2]. apply Z.eqb_eq in H1. auto.
Qed.

(** Rounding a canonical mantissa leaves it as it is. *)
Lemma binary_round_aux_canonical s m e :
  bounded prec emax m e = true ->
  binary_round_aux prec emax s (Zpos m) e loc_Exact = S754_finite s m e.
Proof.
  intros Hb. apply bounded_fexp in Hb as [Hf He].
  unfold binary_round_aux.
  rewrite (shr_fexp_exact_noshift m e Hf).
  cbn [shr_m loc_of_shr_record round_nearest_even].
  rewrite (shr_fexp_exact_noshift m e Hf).
  cbn [shr_m]. rewrite He. reflexivity.
Qed.

(** So does rounding twice the mantissa one exponent below. *)
Lemma binary_round_aux_double s m e :
  bounded prec emax m e = true -> (-1074 < e)%Z ->
  binary_round_aux prec emax s (Zpos m~0) (e - 1) loc_Exact
  = S754_finite s m e.
Proof.
  intros Hb Hlt. pose proof (bounded_canonical m e Hb) as (_ & _ & Hd & _).
  specialize (Hd Hlt).
  apply bounded_fexp in Hb as [Hf He].
  assert (Hshift :
    (fexp prec emax (Zdigits2 (Zpos m~0) + (e - 1)) - (e - 1) = 1)%Z).
  { cbn [Zdigits2 digits2_pos]. rewrite Pos2Z.inj_succ, Hd.
    unfold fexp, SpecFloat.emin, prec, emax. lia. }
  unfold binary_round_aux, shr_fexp at 1. rewrite Hshift.
  cbn [shr shr_record_of_loc SpecFloat.iter_pos shr_1 orb shr_m loc_of_shr_record
       round_nearest_even].
  replace (e - 1 + 1)%Z with e by lia.
  rewrite (shr_fexp_exact_noshift m e Hf).
  cbn [shr_m]. rewrite He. reflexivity.
Qed.

Lemma Prim2SF_one : Prim2SF 1 = SFone64.
Proof. reflexivity. Qed.

Lemma div_eucl_mul a b :
  (0 < b)%Z -> Z.div_eucl (a * b) b = (a, 0%Z).
Proof.
  intros Hb.
  pose proof (Z.div_mul a b ltac:(lia)) as Hq.
  pose proof (Z.mod_mul a b ltac:(lia)) as Hr.
  unfold Z.div, Z.modulo in Hq, Hr.
  destruct (Z.div_eucl (a * b) b) as [q r]. congruence.
Qed.

Lemma SFdiv_core_one m e :
  bounded prec emax m e = true ->
  SFdiv_core_binary prec emax (Zpos m) e 4503599627370496 (-52) =
    if (-1074 <? e)%Z then (Zpos m~0, (e - 1)%Z, loc_Exact)
    else (Zpos m, e, loc_Exact).
Proof.
  intros Hb. pose proof (bounded_canonical m e Hb) as (H1 & H2 & H3 & H4).
  unfold SFdiv_core_binary.
  change (Zdigits2 4503599627370496) with 53%Z.
  cbn [Zdigits2].
  destruct (Z.ltb_spec (-1074) e) as [Hlt|Hge].
  - rewrite (H3 Hlt).
    replace (Z.min (fexp prec emax (53 + e - (53 + -52))) (e - -52))
      with (e - 1)%Z
      by (unfold fexp, SpecFloat.emin, prec, emax; lia).
    replace (e - -52 - (e - 1))%Z with 53%Z by lia.
    rewrite Z.shiftl_mul_pow2 by lia.
    replace (Zpos m * 2 ^ 53)%Z with (Zpos m~0 * 4503599627370496)%Z
      by (change (2 ^ 53)%Z with (2 * 4503599627370496)%Z; lia).
    rewrite div_eucl_mul by lia. reflexivity.
  - assert (e = (-1074)%Z) by lia. subst e.
    replace (Z.min (fexp prec emax (Zpos (digits2_pos m) + -1074 - (53 + -52)))
               (-1074 - -52)) with (-1074)%Z
      by (unfold fexp, SpecFloat.emin, prec, emax; lia).
    change (-1074 - -52 - -1074)%Z with 52%Z.
    rewrite Z.shiftl_mul_pow2 by lia.
    change (2 ^ 52)%Z with 4503599627370496%Z.
    rewrite div_eucl_mul by lia. reflexivity.
Qed.

Lemma SFdiv_one x :
  valid_binary x = true -> SF64div x SFone64 = x.
Proof.
  intros Hv. destruct x as [s|s| |s m e]; simpl in Hv.
  - simpl. rewrite xorb_false_r. reflexivity.
  - simpl. rewrite xorb_false_r. reflexivity.
  - reflexivity.
  - unfold SF64div, SFdiv, SFone64. rewrite (SFdiv_core_one m e Hv).
    rewrite xorb_false_r.
    destruct (Z.ltb_spec (-1074) e) as [Hlt|Hge].
    + apply binary_round_aux_double; assumption.
    + apply binary_round_aux_canonical; assumption.
Qed.

(** Dividing by [1] returns the dividend, bit for bit. *)
Theorem div_one (x : float) : x / 1 = x.
Proof.
  apply Prim2SF_inj. rewrite FloatAxioms.div_spec, Prim2SF_one.
  apply SFdiv_one, Prim2SF_valid.
Qed.

(** *** Sums and differences up to the sign of zero *)

Lemma zeq_spec x y :
  zeq x y <->
  Prim2SF x = Prim2SF y \/
  (exists s s', Prim2SF x = S754_zero s /\ Prim2SF y = S754_zero s').
Proof.
  unfold zeq. rewrite !is_zero_spec. split.
  - intros [->|[[s Hs] [s' Hs']]]; eauto.
  - intros [H|(s & s' & Hs & Hs')]; eauto using Prim2SF_inj.
Qed.

Lemma SFadd_zeq a a' b b' :
  (a = a' \/ exists s s', a = S754_zero s /\ a' = S754_zero s') ->
  (b = b' \/ exists s s', b = S754_zero s /\ b' = S754_zero s') ->
  SF64add a b = SF64add a' b' \/
  exists s s', SF64add a b = S754_zero s /\ SF64add a' b' = S754_zero s'.
Proof.
  intros [->|(sa & sa' & -> & ->)] [->|(sb & sb' & -> & ->)].
  - left. reflexivity.
  - destruct a' as [s|s| |s m e]; simpl; eauto.
    right. destruct s, sb, sb'; simpl; eauto.
  - destruct b' as [s|s| |s m e]; simpl; eauto.
    right. destruct s, sa, sa'; simpl; eauto.
  - right. destruct sa, sa', sb, sb'; simpl; eauto.
Qed.

Lemma SFsub_zeq a a' b b' :
  (a = a' \/ exists s s', a = S754_zero s /\ a' = S754_zero s') ->
  (b = b' \/ exists s s', b = S754_zero s /\ b' = S754_zero s') ->
  SF64sub a b = SF64sub a' b' \/
  exists s s', SF64sub a b = S754_zero s /\ SF64sub a' b' = S754_zero s'.
Proof.
  intros [->|(sa & sa' & -> & ->)] [->|(sb & sb' & -> & ->)].
  - left. reflexivity.
  - destruct a' as [s|s| |s m e]; simpl; eauto.
    right. destruct s, sb, sb'; simpl; eauto.
  - destruct b' as [s|s| |s m e]; simpl; eauto.
    right. destruct s, sa, sa'; simpl; eauto.
  - right. destruct sa, sa', sb, sb'; simpl; eauto.
Qed.

Lemma add_zeq a a' b b' : zeq a a' -> zeq b b' -> zeq (a + b) (a' + b').
Proof.
  rewrite !zeq_spec, !FloatAxioms.add_spec. apply SFadd_zeq.
Qed.

Lemma sub_zeq a a' b b' : zeq a a' -> zeq b b' -> zeq (a - b) (a' - b').
Proof.
  rewrite !zeq_spec, !FloatAxioms.sub_spec. apply SFsub_zeq.
Qed.

End IEEEFacts.


(** ** Reading a field of an object after guarded assignments *)

Section Lookup.
Context {T : Type} `{EqDecision T}.
Implicit Types (o : Partial T) (f g : T) (v : JS.value).

Lemma assign_if_other o f v g : g <> f -> assign_if o f v g = o g.
Proof.
  intros Hne. destruct v as [x|]; simpl; [|reflexivity].
  unfold assign. destruct (decide (g = f)); [contradiction|reflexivity].
Qed.

Lemma assign_if_same o f v :
  assign_if o f v f = match v with Some x => Some x | None => o f end.
Proof.
  destruct v as [x|]; simpl; [|reflexivity].
  unfold assign. destruct (decide (f = f)); [reflexivity|contradiction].
Qed.
End Lookup.

(** Reads field [f] of [calculateFinancialRatios m]: the assignments to
    other fields are skipped, the one to [f] is kept. *)
Ltac read_ratio :=
  unfold calculateFinancialRatios; cbv zeta;
  repeat rewrite assign_if_other by discriminate;
  repeat (rewrite assign_if_same; repeat rewrite assign_if_other by discriminate).

Section RatioFields.
Variable metrics : Partial FinancialMetrics.
Let ratios := calculateFinancialRatios metrics.

Lemma currentRatio_value :
  ratios currentRatio =
    (ca ← metrics currentAssets; cl ← metrics currentLiabilities;
     Some (ca / (cl || 1))).
Proof.
  subst ratios. read_ratio.
  destruct (metrics currentAssets), (metrics currentLiabilities); reflexivity.
Qed.

Lemma debtServiceCoverageRatio_value :
  ratios debtServiceCoverageRatio =
    (oi ← metrics operatingIncome; std ← metrics shortTermDebt;
     ltd ← metrics longTermDebt;
     Some (oi / (((std || 0) + (ltd || 0)
                  + JS.or_undef (metrics interestExpense) 0) || 1))).
Proof.
  subst ratios. read_ratio.
  destruct (metrics operatingIncome), (metrics shortTermDebt),
    (metrics longTermDebt); reflexivity.
Qed.

Lemma inventoryTurnover_value :
  ratios inventoryTurnover =
    (c ← metrics cogs; inv ← metrics inventory; Some (c / (inv || 1))).
Proof.
  subst ratios. read_ratio.
  destruct (metrics cogs), (metrics inventory); reflexivity.
Qed.

Lemma receivablesTurnover_value :
  ratios receivablesTurnover =
    (rev ← metrics revenue; ar ← metrics accountsReceivable;
     Some (rev / (ar || 1))).
Proof.
  subst ratios. read_ratio.
  destruct (metrics revenue), (metrics accountsReceivable); reflexivity.
Qed.

Lemma payablesTurnover_value :
  ratios payablesTurnover =
    (c ← metrics cogs; ap ← metrics accountsPayable; Some (c / (ap || 1))).
Proof.
  subst ratios. read_ratio.
  destruct (metrics cogs), (metrics accountsPayable); reflexivity.
Qed.

Lemma daysInventoryOutstanding_value :
  ratios daysInventoryOutstanding =
    (it ← ratios inventoryTurnover; Some (365 / (it || 1))).
Proof.
  rewrite inventoryTurnover_value. subst ratios. read_ratio.
  destruct (metrics cogs), (metrics inventory); reflexivity.
Qed.

Lemma daysReceivableOutstanding_value :
  ratios daysReceivableOutstanding =
    (rt ← ratios receivablesTurnover; Some (365 / (rt || 1))).
Proof.
  rewrite receivablesTurnover_value. subst ratios. read_ratio.
  destruct (metrics revenue), (metrics accountsReceivable); reflexivity.
Qed.

Lemma daysPayableOutstanding_value :
  ratios daysPayableOutstanding =
    (pt ← ratios payablesTurnover; Some (365 / (pt || 1))).
Proof.
  rewrite payablesTurnover_value. subst ratios. read_ratio.
  destruct (metrics cogs), (metrics accountsPayable); reflexivity.
Qed.

Lemma cashConversionCycle_value :
  ratios cashConversionCycle =
    (dio ← ratios daysInventoryOutstanding;
     dro ← ratios daysReceivableOutstanding;
     dpo ← ratios daysPayableOutstanding;
     Some ((dio || 0) + (dro || 0) - (dpo || 0))).
Proof.
  rewrite daysInventoryOutstanding_value, daysReceivableOutstanding_value,
    daysPayableOutstanding_value.
  rewrite inventoryTurnover_value, receivablesTurnover_value,
    payablesTurnover_value.
  subst ratios. read_ratio.
  destruct (metrics cogs), (metrics inventory), (metrics revenue),
    (metrics accountsReceivable), (metrics accountsPayable); reflexivity.
Qed.
End RatioFields.


(** ** Truthiness and the [||] guards *)

Section Guards.
Import IEEE IEEEFacts.

Lemma truthy_spec x :
  JS.truthy x = true <->
  (exists s, Prim2SF x = S754_infinity s) \/
  (exists s m e, Prim2SF x = S754_finite s m e).
Proof.
  unfold JS.truthy. rewrite negb_true_iff, orb_false_iff.
  pose proof (is_zero_spec x) as Hz. pose proof (is_nan_spec x) as Hn.
  destruct (Prim2SF x) as [s|s| |s m e] eqn:E.
  - split; [intros [H _]|intros [[? ?]|(? & ? & ? & ?)]; discriminate].
    destruct (is_zero x); [discriminate|].
    assert (false = true) by (apply Hz; eauto). discriminate.
  - split; [eauto|intros _].
    split; [destruct (is_zero x)|destruct (is_nan x)]; try reflexivity.
    + destruct Hz as [Hz _]. destruct (Hz eq_refl). discriminate.
    + destruct Hn as [Hn _]. discriminate (Hn eq_refl).
  - split; [intros [_ H]|intros [[? ?]|(? & ? & ? & ?)]; discriminate].
    destruct (is_nan x); [discriminate|].
    assert (false = true) by (apply Hn; reflexivity). discriminate.
  - split; [eauto 6|intros _].
    split; [destruct (is_zero x)|destruct (is_nan x)]; try reflexivity.
    + destruct Hz as [Hz _]. destruct (Hz eq_refl). discriminate.
    + destruct Hn as [Hn _]. discriminate (Hn eq_refl).
Qed.

(** The guard [x || 1] is never falsy. *)
Lemma or_one_truthy x : JS.truthy (x || 1) = true.
Proof.
  unfold JS.or. destruct (JS.truthy x) eqn:E; [exact E|reflexivity].
Qed.

(** A falsy divisor is replaced by [1]. *)
Lemma or_one_zero x : is_zero x = true -> (x || 1) = 1.
Proof. intros H. unfold JS.or, JS.truthy. rewrite H. reflexivity. Qed.

(** [x || 0] is [x] up to the sign of zero, unless [x] is NaN. *)
Lemma or_zero_zeq x : is_nan x = false -> zeq (x || 0) x.
Proof.
  intros Hn. unfold JS.or, JS.truthy. rewrite Hn, orb_false_r.
  destruct (is_zero x) eqn:Hz; simpl; [right|left]; auto.
Qed.

(** Guards erase the sign of zero. *)
Lemma zeq_or_one x y : zeq x y -> (x || 1) = (y || 1).
Proof.
  intros [->|[Hx Hy]]; [reflexivity|].
  rewrite !or_one_zero by assumption. reflexivity.
Qed.

Lemma zeq_same_number x y : zeq x y -> same_number x y.
Proof.
  intros [->|[Hx Hy]]; [left; reflexivity|right].
  apply is_zero_spec in Hx as [s Hx]. apply is_zero_spec in Hy as [s' Hy].
  rewrite FloatAxioms.eqb_spec, Hx, Hy. reflexivity.
Qed.

(** [365 / d] is never NaN when [d] is truthy. *)
Lemma days_not_nan d : JS.truthy d = true -> is_nan (365 / d) = false.
Proof.
  intros Ht. destruct (is_nan (365 / d)) eqn:E; [|reflexivity].
  apply is_nan_spec in E. rewrite FloatAxioms.div_spec in E.
  change (Prim2SF 365) with (S754_finite false 6421147906211840 (-44)) in E.
  apply truthy_spec in Ht as [[s Hd]|(s & m & e & Hd)]; rewrite Hd in E.
  - discriminate.
  - pose proof (SFdiv_signed (S754_finite false 6421147906211840 (-44))
                  s m e eq_refl) as Hs.
    rewrite E in Hs. contradiction.
Qed.
End Guards.

(** ** RatioCalculator *)

(** C10. [calculateFinancialRatios] never sets [cashRatio]: the field is
    declared in [CalculatedRatios] but absent from every output. *)
Theorem cashRatio_never_computed (metrics : Partial FinancialMetrics) :
  calculateFinancialRatios metrics cashRatio = None.
Proof. read_ratio. reflexivity. Qed.

(** C7. When [currentAssets] is defined and [currentLiabilities] is
    defined and zero, the divisor of [currentRatio] is [1], so that
    [currentRatio] is [currentAssets] itself: the division is exact, it
    yields NaN or an infinity only where [currentAssets] already is one,
    and a finite number whenever [currentAssets] is finite. *)
Theorem currentRatio_zero_liabilities
    (metrics : Partial FinancialMetrics) (ca cl : float) :
  metrics currentAssets = Some ca ->
  metrics currentLiabilities = Some cl ->
  (cl =? 0) = true ->
  calculateFinancialRatios metrics currentRatio = Some (ca / 1) /\
  ca / 1 = ca /\
  is_nan (ca / 1) = is_nan ca /\
  is_infinity (ca / 1) = is_infinity ca /\
  (is_finite ca = true -> is_finite (ca / 1) = true).
Proof.
  intros Hca Hcl Hz.
  rewrite currentRatio_value, Hca, Hcl. simpl.
  rewrite (or_one_zero cl Hz).
  split; [reflexivity|]. rewrite IEEEFacts.div_one. auto.
Qed.

Lemma currentRatio_zero_liabilities_witness :
  let metrics : Partial FinancialMetrics :=
    object [(currentAssets, 100000); (currentLiabilities, 0)] in
  (metrics currentAssets = Some 100000 /\
   metrics currentLiabilities = Some 0 /\ (0 =? 0) = true) /\
  calculateFinancialRatios metrics currentRatio = Some (100000 / 1) /\
  100000 / 1 = 100000 /\
  is_nan (100000 / 1) = is_nan 100000 /\
  is_infinity (100000 / 1) = is_infinity 100000 /\
  (is_finite 100000 = true -> is_finite (100000 / 1) = true).
Proof.
  split; [repeat split|].
  apply (currentRatio_zero_liabilities
           (object [(currentAssets, 100000); (currentLiabilities, 0)])
           100000 0); reflexivity.
Defined.

(** [x || 0] is [nan_as_zero x] up to the sign of zero. *)
Lemma or_zero_nan_as_zero x : IEEE.zeq (x || 0) (nan_as_zero x).
Proof.
  unfold nan_as_zero. destruct (is_nan x) eqn:Hn.
  - left. unfold JS.or, JS.truthy. rewrite Hn, orb_true_r. reflexivity.
  - apply or_zero_zeq, Hn.
Qed.

Lemma or_undef_zero (v : JS.value) : JS.or_undef v 0 = (default 0 v || 0).
Proof. destruct v; reflexivity. Qed.

Lemma or_one_unfold d :
  (d || 1) = if (is_zero d || is_nan d)%bool then 1 else d.
Proof. unfold JS.or, JS.truthy. destruct (is_zero d || is_nan d)%bool; reflexivity. Qed.

(** C3, as the code has it.  [debtServiceCoverageRatio] is in the output
    exactly when [operatingIncome], [shortTermDebt] and [longTermDebt] are
    all defined; it is then [operatingIncome] divided by the sum of
    [shortTermDebt], [longTermDebt] and [interestExpense], where
    [interestExpense] counts as [0] when absent, a NaN term counts as [0],
    and the sum is replaced by [1] when it is [0] or NaN. *)
Theorem debtServiceCoverageRatio_spec (metrics : Partial FinancialMetrics) :
  calculateFinancialRatios metrics debtServiceCoverageRatio =
    match metrics operatingIncome, metrics shortTermDebt,
          metrics longTermDebt with
    | Some oi, Some std, Some ltd =>
        Some (dscr_amended oi std ltd (metrics interestExpense))
    | _, _, _ => None
    end.
Proof.
  rewrite debtServiceCoverageRatio_value.
  destruct (metrics operatingIncome) as [oi|]; [|reflexivity].
  destruct (metrics shortTermDebt) as [std|]; [|reflexivity].
  destruct (metrics longTermDebt) as [ltd|]; [|reflexivity].
  simpl. unfold dscr_amended. cbv zeta.
  rewrite <- or_one_unfold, or_undef_zero.
  do 2 f_equal. apply zeq_or_one.
  repeat apply IEEEFacts.add_zeq; apply or_zero_nan_as_zero.
Qed.

(** C3, as stated, fails: with [operatingIncome] alone the output has no
    [debtServiceCoverageRatio]. *)
Lemma dscr_needs_both_debt_fields : ~ dscr_whenever_operatingIncome.
Proof.
  intros H.
  specialize (H (object [(operatingIncome, 100)]) 100 eq_refl).
  rewrite debtServiceCoverageRatio_value in H. discriminate H.
Qed.

(** C8. [cashConversionCycle] is in the output exactly when the three
    days-metrics are, and it is then the number
    [daysInventoryOutstanding + daysReceivableOutstanding -
    daysPayableOutstanding]. *)
Theorem cashConversionCycle_spec (metrics : Partial FinancialMetrics) :
  let ratios := calculateFinancialRatios metrics in
  (is_Some (ratios cashConversionCycle) <->
   is_Some (ratios daysInventoryOutstanding) /\
   is_Some (ratios daysReceivableOutstanding) /\
   is_Some (ratios daysPayableOutstanding)) /\
  match ratios daysInventoryOutstanding, ratios daysReceivableOutstanding,
        ratios daysPayableOutstanding with
  | Some dio, Some dro, Some dpo =>
      exists ccc, ratios cashConversionCycle = Some ccc /\
                  IEEE.same_number ccc (dio + dro - dpo)
  | _, _, _ => ratios cashConversionCycle = None
  end.
Proof.
  intros ratios. subst ratios.
  rewrite cashConversionCycle_value.
  pose proof (daysInventoryOutstanding_value metrics) as Hi.
  pose proof (daysReceivableOutstanding_value metrics) as Hr.
  pose proof (daysPayableOutstanding_value metrics) as Hp.
  destruct (calculateFinancialRatios metrics daysInventoryOutstanding)
    as [dio|]; simpl;
    [|split; [split; [intros [? ?]|intros [[? ?] _]]; discriminate
             |reflexivity]].
  destruct (calculateFinancialRatios metrics daysReceivableOutstanding)
    as [dro|]; simpl;
    [|split; [split; [intros [? ?]|intros (_ & [? ?] & _)]; discriminate
             |reflexivity]].
  destruct (calculateFinancialRatios metrics daysPayableOutstanding)
    as [dpo|]; simpl;
    [|split; [split; [intros [? ?]|intros (_ & _ & [? ?])]; discriminate
             |reflexivity]].
  split; [split; eauto|].
  eexists; split; [reflexivity|].
  destruct (calculateFinancialRatios metrics inventoryTurnover) as [it|];
    [|discriminate].
  destruct (calculateFinancialRatios metrics receivablesTurnover) as [rt|];
    [|discriminate].
  destruct (calculateFinancialRatios metrics payablesTurnover) as [pt|];
    [|discriminate].
  simpl in Hi, Hr, Hp.
  injection Hi as ->. injection Hr as ->. injection Hp as ->.
  apply zeq_same_number, IEEEFacts.sub_zeq; [apply IEEEFacts.add_zeq|];
    apply or_zero_zeq, days_not_nan, or_one_truthy.
Qed.

(** ** TrendAnalyzer *)

Lemma lookup_assign_key_if_same (o : gmap string float) k v :
  assign_key_if o k v !! k = from_option Some (o !! k) v.
Proof.
  destruct v as [x|]; simpl; [apply lookup_insert_eq|reflexivity].
Qed.

Lemma lookup_assign_key_if_other (o : gmap string float) k v k' :
  k <> k' -> assign_key_if o k v !! k' = o !! k'.
Proof.
  intros Hne. destruct v as [x|]; simpl; [|reflexivity].
  apply lookup_insert_ne, Hne.
Qed.

(** Reads a key of [calculateTrendAnalysis]. *)
Ltac read_trend :=
  unfold calculateTrendAnalysis, growth; cbv zeta;
  repeat rewrite lookup_assign_key_if_other by discriminate;
  rewrite lookup_assign_key_if_same;
  repeat rewrite lookup_assign_key_if_other by discriminate;
  rewrite lookup_empty;
  match goal with
  | |- from_option Some None ?v = _ => destruct v; reflexivity
  end.

Lemma dom_assign_key_if (o : gmap string float) k v (X : gset string) :
  k ∈ X -> dom o ⊆ X -> dom (assign_key_if o k v) ⊆ X.
Proof.
  intros Hk Ho. destruct v as [x|]; simpl; [|exact Ho].
  rewrite dom_insert. apply union_subseteq. split; [|exact Ho].
  apply singleton_subseteq_l, Hk.
Qed.

Lemma is_Some_both {A B C} (a : option A) (b : option B) (f : A -> B -> C) :
  is_Some (x ← a; y ← b; Some (f x y)) <-> is_Some a /\ is_Some b.
Proof.
  destruct a, b; simpl; split; try (intros [[? ?] [? ?]]); eauto;
    try (intros [? ?]); discriminate.
Qed.

(** C9. The output of [calculateTrendAnalysis] has the key [revenueGrowth]
    ([profitGrowth], [assetGrowth], [equityGrowth]) exactly when [revenue]
    ([netIncome], [assets], [equity]) is present in both inputs; the value
    is then [(current - previous) / previous * 100]; there is no other
    key. *)
Theorem calculateTrendAnalysis_spec
    (currentMetrics previousMetrics : Partial FinancialMetrics) :
  let trends := calculateTrendAnalysis currentMetrics previousMetrics in
  let entry field :=
    c ← currentMetrics field; p ← previousMetrics field;
    Some ((c - p) / p * 100) in
  let both field :=
    is_Some (currentMetrics field) /\ is_Some (previousMetrics field) in
  (trends !! "revenueGrowth" = entry revenue /\
   trends !! "profitGrowth" = entry netIncome /\
   trends !! "assetGrowth" = entry assets /\
   trends !! "equityGrowth" = entry equity) /\
  ((is_Some (trends !! "revenueGrowth") <-> both revenue) /\
   (is_Some (trends !! "profitGrowth") <-> both netIncome) /\
   (is_Some (trends !! "assetGrowth") <-> both assets) /\
   (is_Some (trends !! "equityGrowth") <-> both equity)) /\
  dom trends ⊆ trendKeys.
Proof.
  intros trends entry both.
  assert (Hval : trends !! "revenueGrowth" = entry revenue /\
                 trends !! "profitGrowth" = entry netIncome /\
                 trends !! "assetGrowth" = entry assets /\
                 trends !! "equityGrowth" = entry equity).
  { subst trends entry. repeat split; read_trend. }
  split; [exact Hval|]. split.
  - destruct Hval as (-> & -> & -> & ->).
    subst entry both. cbv beta. rewrite !is_Some_both. tauto.
  - subst trends. unfold calculateTrendAnalysis, trendKeys. cbv zeta.
    repeat (apply dom_assign_key_if; [set_solver|]).
    rewrite dom_empty. set_solver.
Qed.

(** ** RiskAssessor *)

(** The test of one rule of the code is the condition of the table read
    on the ratio. *)
Lemma fires_below (ratios : Partial CalculatedRatios) f bound message pts :
  fires ratios {| rule_ratio := f; rule_condition := Below bound;
                  rule_message := message; rule_points := pts |}
  = defined_and (ratios f) (fun x => x <? bound).
Proof. unfold fires, defined_and. cbn. destruct (ratios f); reflexivity. Qed.

Lemma fires_above (ratios : Partial CalculatedRatios) f bound message pts :
  fires ratios {| rule_ratio := f; rule_condition := Above bound;
                  rule_message := message; rule_points := pts |}
  = defined_and (ratios f) (fun x => x >? bound).
Proof. unfold fires, defined_and. cbn. destruct (ratios f); reflexivity. Qed.

(** Filtering keeps or drops the head and goes on with the tail. *)
Lemma filter_cons_app {A} (f : A -> bool) (x : A) (l : list A) :
  List.filter f (x :: l) = (if f x then [x] else []) ++ List.filter f l.
Proof. cbn. destruct (f x); reflexivity. Qed.

(** C4. Of the eight rules of the table, in their order, those fire whose
    ratio is present and meets its condition (current ratio below 1, quick
    ratio below 0.5, profit margin below 0, return on equity below 0, debt
    to equity above 2, debt service coverage below 1, cash conversion cycle
    above 120, inventory turnover below 1).  [riskFactors] is the list of
    their messages in that order; [riskScore] is the sum of their points
    (20, 15, 25, 20, 25, 30, 15, 10) capped at 100; and [riskTier] is
    "very_high" from 80, "high" from 60, "medium" from 40, "low" from 20 and
    "very_low" below, read on that capped sum and, to the same effect, on
    the returned [riskScore]. *)
Theorem assessFinancialRisks_spec
    (ratios : Partial CalculatedRatios) (metrics : Partial FinancialMetrics) :
  let r := assessFinancialRisks ratios metrics in
  let hits := triggered ratios riskRules in
  let total := Z.min 100 (points hits) in
  riskFactors r = map rule_message hits /\
  riskScore r = JS.of_Z total /\
  riskTier r =
    (if (80 <=? total)%Z then "very_high"
     else if (60 <=? total)%Z then "high"
     else if (40 <=? total)%Z then "medium"
     else if (20 <=? total)%Z then "low"
     else "very_low") /\
  riskTier r =
    (if riskScore r >=? 80 then "very_high"
     else if riskScore r >=? 60 then "high"
     else if riskScore r >=? 40 then "medium"
     else if riskScore r >=? 20 then "low"
     else "very_low").
Proof.
  unfold assessFinancialRisks, triggered, riskRules. cbv zeta.
  rewrite !filter_cons_app, !fires_below, !fires_above.
  repeat match goal with
  | |- context [defined_and ?v ?f] =>
      let b := fresh "b" in
      generalize (defined_and v f); intros b
  end.
  destruct b, b0, b1, b2, b3, b4, b5, b6; vm_compute; auto.
Qed.

(** The table at work: a current ratio of 0.8 and a debt to equity of 3
    fire the first and the fifth rule; an absent ratio fires nothing, and
    all eight rules together are capped at 100. *)
Example assessFinancialRisks_examples :
  let two := assessFinancialRisks
               (object [(currentRatio, 0.8); (debtToEquityRatio, 3)]) empty in
  let all := assessFinancialRisks
               (object [(currentRatio, 0.5); (quickRatio, 0.2);
                        (profitMargin, -5); (returnOnEquity, -5);
                        (debtToEquityRatio, 3);
                        (debtServiceCoverageRatio, 0.5);
                        (cashConversionCycle, 150);
                        (inventoryTurnover, 0.5)]) empty in
  (riskFactors two = ["Low liquidity: Current ratio below 1.0";
                      "High leverage: Debt-to-equity ratio exceeds 2.0"] /\
   riskScore two = 45 /\ riskTier two = "medium") /\
  (riskScore all = 100 /\ riskTier all = "very_high" /\
   length (riskFactors all) = 8%nat) /\
  assessFinancialRisks empty empty
  = {| riskTier := "very_low"; riskFactors := []; riskScore := 0 |}.
Proof. vm_compute. auto 10. Qed.

(** ** CreditScorer *)

(** C5, as the code has it.  The weighted sum of the returned factors is
    liquidity x 0.2 + profitability x 0.25 + leverage x 0.25 + efficiency x
    0.15 + growth x 0.1 + payment history x 0.05.  The returned tier is read
    on that sum before it is rounded: "excellent" from 80, "good" from 65,
    "fair" from 50, "poor" from 35, "very_poor" below; the returned score is
    the sum rounded to two decimals, [Math.round(sum * 100) / 100]. *)
Theorem calculateCreditScore_tier_and_score
    (ratios : Partial CalculatedRatios) (metrics : Partial FinancialMetrics)
    (paymentHistory growthRate : JS.value) :
  let r := calculateCreditScore ratios metrics paymentHistory growthRate in
  let f := factors r in
  let sum :=
    liquidityScore f * 0.2 + profitabilityScore f * 0.25
    + leverageScore f * 0.25 + efficiencyScore f * 0.15
    + growthScore f * 0.1 + paymentHistoryScore f * 0.05 in
  tier r =
    (if sum >=? 80 then "excellent"
     else if sum >=? 65 then "good"
     else if sum >=? 50 then "fair"
     else if sum >=? 35 then "poor"
     else "very_poor") /\
  score r = JS.Math_round (sum * 100) / 100.
Proof. split; reflexivity. Qed.

(** C5, as stated, fails: a weighted sum of 79.996 is tiered "good" and
    returned as the score 80, which the ladder maps to "excellent". *)
Lemma tier_ignores_rounding : ~ tier_follows_returned_score.
Proof.
  intros H.
  specialize (H (object [(currentRatio, 2); (profitMargin, 15);
                         (debtToEquityRatio, 0.5)])
                empty (Some 99.92) (Some 50)).
  vm_compute in H. discriminate H.
Qed.

Example tier_ignores_rounding_values :
  let r := calculateCreditScore
             (object [(currentRatio, 2); (profitMargin, 15);
                      (debtToEquityRatio, 0.5)])
             empty (Some 99.92) (Some 50) in
  (weightedScore (factors r) <? 80) = true /\
  score r = 80 /\ tier r = "good" /\ creditTier (score r) = "excellent".
Proof. vm_compute. auto. Qed.

(** C1: the score can leave [0, 100].  A loss of three times the equity,
    scored through the whole pipeline with the default payment-history and
    growth scores of 50, gives a negative score: the return-on-equity
    sub-score is capped above by [Math.min(100, ...)] and not below. *)
Theorem calculateCreditScore_negative :
  let metrics : Partial FinancialMetrics :=
    object [(revenue, 500000); (netIncome, -300000); (equity, 100000)] in
  let r := calculateCreditScore (calculateFinancialRatios metrics) metrics
             None None in
  profitabilityScore (factors r) = -1000 /\
  score r = -242.5 /\ (score r <? 0) = true /\ tier r = "very_poor".
Proof. vm_compute. auto. Qed.

(** ** CostOptimizer *)

Lemma or_undef_effective (benchmarks : gmap string float) key dflt :
  JS.or_undef (benchmarks !! key) dflt = effective_benchmark benchmarks key dflt.
Proof.
  unfold effective_benchmark, JS.or_undef, JS.or, JS.truthy.
  destruct (benchmarks !! key) as [v|]; [|reflexivity].
  destruct (is_zero v || is_nan v)%bool; reflexivity.
Qed.

(** A supplied benchmark that is truthy is the one the specification
    names: the two readings differ only at [0], [-0] and NaN. *)
Lemma effective_benchmark_truthy (benchmarks : gmap string float) key dflt v :
  benchmarks !! key = Some v -> JS.truthy v = true ->
  effective_benchmark benchmarks key dflt = v /\
  benchmark_as_stated benchmarks key dflt = v.
Proof.
  unfold effective_benchmark, benchmark_as_stated, JS.truthy.
  intros -> Ht. apply negb_true_iff in Ht. rewrite Ht. auto.
Qed.

Lemma effective_benchmark_missing (benchmarks : gmap string float) key dflt :
  benchmarks !! key = None ->
  effective_benchmark benchmarks key dflt = dflt /\
  benchmark_as_stated benchmarks key dflt = dflt.
Proof.
  unfold effective_benchmark, benchmark_as_stated. intros ->. auto.
Qed.

(** Splits the output of [generateCostOptimizationRecommendations] into
    its (at most three) recommendations. *)
Ltac each_recommendation :=
  unfold generateCostOptimizationRecommendations; cbv zeta;
  repeat match goal with
  | |- context [match ?o with Some _ => _ | None => _ end] =>
      let v := fresh "v" in destruct o as [v|]
  end;
  repeat match goal with
  | |- context [if JS.gtb ?a ?b then _ ++ _ else _] =>
      let E := fresh "Hgt" in destruct (JS.gtb a b) eqn:E
  end;
  cbn [app];
  repeat first [apply Forall_nil_2 | apply Forall_cons_2].

(** C2, as the code has it.  The benchmark in force for a check is the
    engine default (30, 60, 45) when the key is missing or the supplied
    value is [0], [-0] or NaN, and the supplied value otherwise.  The list
    returned is the one the three checks give over that benchmark: a share
    (or days receivable) above it yields the recommendation and one at or
    below it yields none, and the benchmark reported, the saving, the
    quoted excess and the priority are all computed from it. *)
Theorem recommendations_use_effective_benchmark
    (ratios : Partial CalculatedRatios) (metrics : Partial FinancialMetrics)
    (benchmarks : gmap string float) :
  generateCostOptimizationRecommendations ratios metrics benchmarks
  = recommendations_with effective_benchmark ratios metrics benchmarks.
Proof.
  unfold generateCostOptimizationRecommendations, recommendations_with,
    cost_recommendation, receivable_recommendation.
  cbv zeta. rewrite !or_undef_effective.
  repeat match goal with
  | |- context [effective_benchmark ?m ?k ?d] =>
      let b := fresh "b" in generalize (effective_benchmark m k d); intros b
  end.
  repeat match goal with
  | |- context [match ?o with Some _ => _ | None => _ end] =>
      let v := fresh "v" in destruct o as [v|]
  end;
  repeat match goal with
  | |- context [if JS.gtb ?x ?y then _ ++ _ else _] =>
      destruct (JS.gtb x y)
  end;
  reflexivity.
Qed.

(** In particular every recommendation reports, and was triggered by
    exceeding, the effective benchmark of its category. *)
Lemma benchmarks_default_when_falsy :
  benchmarks_picked_by effective_benchmark.
Proof.
  intros ratios metrics benchmarks. each_recommendation.
  all: cbn [category benchmarkValue currentValue];
    do 2 eexists; (split; [reflexivity|]);
    rewrite <- or_undef_effective; split; [reflexivity|assumption].
Qed.

(** Two numbers that differ under [is_zero] are different numbers. *)
Lemma is_zero_diff (x y : float) : is_zero x <> is_zero y -> x <> y.
Proof. intros H ->. apply H. reflexivity. Qed.

(** C2, as stated, fails: a supplied benchmark of [0] is not used as it is;
    an operating-expense ratio of 40 is compared with, and reported
    against, the default 30. *)
Lemma supplied_zero_benchmark_ignored :
  ~ benchmarks_picked_by benchmark_as_stated.
Proof.
  intros H.
  specialize (H empty
                (object [(operatingExpenses, 400000); (revenue, 1000000)])
                {[ "operatingExpenseRatio" := 0 ]}).
  remember (generateCostOptimizationRecommendations _ _ _) as out eqn:E.
  vm_compute in E. subst out.
  apply Forall_inv in H. cbn [category benchmarkValue] in H.
  destruct H as (key & dflt & Hk & Hv & _).
  vm_compute in Hk. injection Hk as <- <-.
  vm_compute in Hv. revert Hv. apply is_zero_diff. discriminate.
Qed.

(** The same input against the three checks read with the benchmark as
    stated: they would compare the share of 40 with the supplied 0. *)
Example supplied_zero_benchmark_values :
  let metrics : Partial FinancialMetrics :=
    object [(operatingExpenses, 400000); (revenue, 1000000)] in
  let supplied : gmap string float := {[ "operatingExpenseRatio" := 0 ]} in
  (benchmarkValue <$>
     generateCostOptimizationRecommendations empty metrics supplied) = [30] /\
  (benchmarkValue <$>
     recommendations_with benchmark_as_stated empty metrics supplied) = [0] /\
  (savingsPotential <$>
     generateCostOptimizationRecommendations empty metrics supplied)
  = [100000] /\
  (savingsPotential <$>
     recommendations_with benchmark_as_stated empty metrics supplied)
  = [400000].
Proof. vm_compute. auto. Qed.

(** A positive finite number is a finite value of positive sign. *)
Lemma positive_finite_spec rev :
  (rev >? 0) = true -> is_infinity rev = false ->
  exists m e, Prim2SF rev = S754_finite false m e.
Proof.
  unfold JS.gtb. rewrite FloatAxioms.ltb_spec. intros Hpos Hfin.
  change (Prim2SF 0) with (S754_zero false) in Hpos.
  destruct (Prim2SF rev) as [s|s| |s m e] eqn:E; try discriminate Hpos.
  - assert (is_infinity rev = true) by (apply IEEEFacts.is_infinity_spec; eauto).
    congruence.
  - destruct s; [discriminate Hpos|eauto].
Qed.

(** The saving [revenue * ((ratio - benchmark) / 100)] is not negative, and
    not NaN, when the revenue is positive and finite and the ratio exceeds
    the benchmark. *)
Lemma saving_nonnegative rev ratio benchmark :
  (rev >? 0) = true -> is_infinity rev = false ->
  (ratio >? benchmark) = true ->
  (rev * ((ratio - benchmark) / 100) >=? 0) = true.
Proof.
  intros Hpos Hfin Hgt.
  destruct (positive_finite_spec rev Hpos Hfin) as (m & e & Hrev).
  unfold JS.gtb in Hgt. rewrite FloatAxioms.ltb_spec in Hgt.
  unfold JS.geb.
  rewrite FloatAxioms.leb_spec, FloatAxioms.mul_spec, FloatAxioms.div_spec,
    FloatAxioms.sub_spec, Hrev.
  change (Prim2SF 0) with (S754_zero false).
  change (Prim2SF 100) with (S754_finite false 7036874417766400 (-46)).
  apply IEEEFacts.signed_false_nonneg, IEEEFacts.SFmul_signed,
    IEEEFacts.SFdiv_signed, IEEEFacts.SFsub_signed;
    auto using Prim2SF_valid.
Qed.

(** X19. When [revenue], if present, is a positive finite number, every
    recommendation has [savingsPotential >= 0], whatever the other metrics,
    the ratios and the benchmarks. *)
Theorem savingsPotential_nonnegative
    (ratios : Partial CalculatedRatios) (metrics : Partial FinancialMetrics)
    (benchmarks : gmap string float) :
  revenue_positive_finite metrics ->
  savings_nonnegative
    (generateCostOptimizationRecommendations ratios metrics benchmarks).
Proof.
  unfold revenue_positive_finite, savings_nonnegative. intros Hrev.
  each_recommendation; cbn [savingsPotential];
    try reflexivity; destruct Hrev; apply saving_nonnegative; assumption.
Qed.

Lemma savingsPotential_nonnegative_witness :
  let metrics : Partial FinancialMetrics :=
    object [(operatingExpenses, 400000); (revenue, 1000000)] in
  revenue_positive_finite metrics /\
  savings_nonnegative
    (generateCostOptimizationRecommendations empty metrics
       {[ "operatingExpenseRatio" := 25 ]}).
Proof.
  split; [split; reflexivity|].
  apply (savingsPotential_nonnegative empty
           (object [(operatingExpenses, 400000); (revenue, 1000000)])
           {[ "operatingExpenseRatio" := 25 ]}).
  split; reflexivity.
Defined.

(** C6: a saving can be NaN.  With operating expenses of 100 and a revenue
    of 0 the share [100 / 0 * 100] is [Infinity], which exceeds the default
    benchmark of 30; the recommendation is issued with the saving
    [0 * Infinity], which is NaN and so not [>= 0], and its text quotes an
    excess of [Infinity] percent.  The division by [revenue] is not guarded
    here as it is in [calculateFinancialRatios] ([revenue || 1]). *)
Theorem savingsPotential_nan_at_zero_revenue :
  let metrics : Partial FinancialMetrics :=
    object [(operatingExpenses, 100); (revenue, 0)] in
  let rs := generateCostOptimizationRecommendations empty metrics ∅ in
  (category <$> rs) = ["Operating Expenses"] /\
  (currentValue <$> rs) = [infinity] /\
  (benchmarkValue <$> rs) = [30] /\
  (savingsPotential <$> rs) = [nan] /\
  (recommendation <$> rs) = [ReduceOperatingExpenses infinity] /\
  ((fun r => savingsPotential r >=? 0) <$> rs) = [false] /\
  calculateFinancialRatios
    (object [(netIncome, 100); (revenue, 0)]) profitMargin = Some 10000.
Proof. vm_compute. auto 10. Qed.

(** Hence not every input gives savings that are [>= 0]. *)
Lemma savingsPotential_nan_without_revenue : ~ savings_always_nonnegative.
Proof.
  intros H.
  specialize (H empty (object [(operatingExpenses, 100); (revenue, 0)]) ∅).
  unfold savings_nonnegative in H.
  remember (generateCostOptimizationRecommendations _ _ _) as out eqn:E.
  vm_compute in E. subst out.
  apply Forall_inv in H. vm_compute in H. discriminate H.
Qed.

(** The saving is negative for a negative revenue, and it is NaN for an
    infinite revenue against a benchmark just below zero. *)
Example savingsPotential_other_revenues :
  (savingsPotential <$>
     generateCostOptimizationRecommendations empty
       (object [(operatingExpenses, -50); (revenue, -100)]) ∅) = [-20] /\
  (savingsPotential <$>
     generateCostOptimizationRecommendations empty
       (object [(operatingExpenses, 1); (revenue, infinity)])
       {[ "operatingExpenseRatio" := -5e-324 ]}) = [nan].
Proof. vm_compute. auto. Qed.

(** * Further properties of the engine *)

(** ** Signs and finiteness of numbers *)

Module Sign.

(** [x >= 0]: a zero of either sign, a positive number or [+Infinity]. *)
Definition nonneg (x : float) : Prop := (x >=? 0) = true.

(** [x] is a number or an infinity, not NaN. *)
Definition not_nan (x : float) : Prop := is_nan x = false.

(** [x] is a finite number: [Number.isFinite(x)]. *)
Definition finite (x : float) : Prop := is_finite x = true.

(** A positive finite number. *)
Definition positive (x : float) : Prop :=
  (x >? 0) = true /\ is_infinity x = false.

(** The three classes on the specification format. *)
Definition SFnonneg (p : spec_float) : Prop :=
  match p with
  | S754_zero _ | S754_infinity false | S754_finite false _ _ => True
  | _ => False
  end.

Definition SFfinite (p : spec_float) : Prop :=
  match p with
  | S754_zero _ | S754_finite _ _ _ => True
  | _ => False
  end.

Definition SFnot_nan (p : spec_float) : Prop :=
  match p with
  | S754_nan => False
  | _ => True
  end.

End Sign.

Module SignFacts.
Import IEEE IEEEFacts Sign.

Lemma signed_not_nan s p : signed s p -> SFnot_nan p.
Proof. destruct p; simpl; auto. Qed.

Lemma signed_false_SFnonneg p : signed false p -> SFnonneg p.
Proof. destruct p as [s|s| |s m e]; simpl; intros H; subst; auto. Qed.

Lemma SFnonneg_not_nan p : SFnonneg p -> SFnot_nan p.
Proof. destruct p as [s|[]| |[] m e]; simpl; auto. Qed.

Lemma SFfinite_not_nan p : SFfinite p -> SFnot_nan p.
Proof. destruct p; simpl; auto. Qed.

Lemma nonneg_spec x : nonneg x <-> SFnonneg (Prim2SF x).
Proof.
  unfold nonneg, JS.geb. rewrite FloatAxioms.leb_spec.
  change (Prim2SF 0) with (S754_zero false).
  destruct (Prim2SF x) as [s|[]| |[] m e]; simpl; split; auto; discriminate.
Qed.

Lemma not_nan_spec x : not_nan x <-> SFnot_nan (Prim2SF x).
Proof.
  unfold not_nan. split.
  - intros H. destruct (Prim2SF x) eqn:E; simpl; auto.
    apply is_nan_spec in E. congruence.
  - intros H. destruct (is_nan x) eqn:E; [|reflexivity].
    apply is_nan_spec in E. rewrite E in H. contradiction.
Qed.

Lemma finite_spec x : finite x <-> SFfinite (Prim2SF x).
Proof.
  unfold finite, is_finite. rewrite negb_true_iff, orb_false_iff. split.
  - intros [Hn Hi]. destruct (Prim2SF x) as [s|s| |s m e] eqn:E; simpl; auto.
    + assert (is_infinity x = true) by (apply is_infinity_spec; eauto).
      congruence.
    + apply is_nan_spec in E. congruence.
  - intros H. split.
    + destruct (is_nan x) eqn:E; [|reflexivity].
      apply is_nan_spec in E. rewrite E in H. contradiction.
    + destruct (is_infinity x) eqn:E; [|reflexivity].
      apply is_infinity_spec in E as [s E]. rewrite E in H. contradiction.
Qed.

Lemma positive_spec x :
  positive x <-> exists m e, Prim2SF x = S754_finite false m e.
Proof.
  split.
  - intros [Hp Hi]. apply positive_finite_spec; assumption.
  - intros (m & e & E). split.
    + unfold JS.gtb. rewrite FloatAxioms.ltb_spec, E. reflexivity.
    + destruct (is_infinity x) eqn:Hi; [|reflexivity].
      apply is_infinity_spec in Hi as [s Hi]. congruence.
Qed.

(** *** Closure of the classes under the operations *)

Lemma binary_normalize_not_nan m e :
  SFnot_nan (binary_normalize prec emax m e false).
Proof.
  destruct m as [|p|p]; simpl; [exact I| |];
    eapply signed_not_nan, binary_round_signed.
Qed.

Lemma SFadd_not_nan a b :
  SFnot_nan a -> SFfinite b -> SFnot_nan (SF64add a b).
Proof.
  destruct a as [sa|sa| |sa ma ea], b as [sb|sb| |sb mb eb]; simpl;
    try contradiction; auto.
  - intros _ _. destruct sa, sb; exact I.
  - intros _ _. apply binary_normalize_not_nan.
Qed.

Lemma SFadd_finite_not_nan a b :
  SFfinite a -> SFnot_nan b -> SFnot_nan (SF64add a b).
Proof.
  destruct a as [sa|sa| |sa ma ea], b as [sb|sb| |sb mb eb]; simpl;
    try contradiction; auto.
  - intros _ _. destruct sa, sb; exact I.
  - intros _ _. apply binary_normalize_not_nan.
Qed.

Lemma SFsub_not_nan a b :
  SFnot_nan a -> SFfinite b -> SFnot_nan (SF64sub a b).
Proof.
  destruct a as [sa|sa| |sa ma ea], b as [sb|sb| |sb mb eb]; simpl;
    try contradiction; auto.
  - intros _ _. destruct sa, sb; exact I.
  - intros _ _. apply binary_normalize_not_nan.
Qed.

Lemma SFsub_finite_not_nan a b :
  SFfinite a -> SFnot_nan b -> SFnot_nan (SF64sub a b).
Proof.
  destruct a as [sa|sa| |sa ma ea], b as [sb|sb| |sb mb eb]; simpl;
    try contradiction; auto.
  - intros _ _. destruct sa, sb; exact I.
  - intros _ _. apply binary_normalize_not_nan.
Qed.

Lemma SFmul_not_nan a s m e :
  SFnot_nan a -> SFnot_nan (SF64mul a (S754_finite s m e)).
Proof.
  destruct a as [sa|sa| |sa ma ea]; simpl; try contradiction; auto.
  intros _. eapply signed_not_nan, binary_round_aux_signed. lia.
Qed.

Lemma SFdiv_quotient_signed sx mx ex sy my ey :
  signed (xorb sx sy)
    (SF64div (S754_finite sx mx ex) (S754_finite sy my ey)).
Proof.
  simpl. unfold SFdiv_core_binary.
  set (e' := Z.min _ _).
  set (m' := match (_ - _ - e')%Z with Z0 => _ | Zpos _ => _ | Zneg _ => _ end).
  assert (Hm' : (0 <= m')%Z).
  { subst m'. destruct (_ - _ - e')%Z; try lia. apply Z.shiftl_nonneg. lia. }
  pose proof (div_eucl_quot_nonneg m' (Zpos my) Hm' ltac:(lia)) as Hq.
  destruct (Z.div_eucl m' (Zpos my)) as [q r]. simpl in Hq.
  apply binary_round_aux_signed. exact Hq.
Qed.

(** Any number over a finite nonzero divisor. *)
Lemma SFdiv_not_nan a s m e :
  SFnot_nan a -> SFnot_nan (SF64div a (S754_finite s m e)).
Proof.
  destruct a as [sa|sa| |sa ma ea]; try contradiction; try (intros _; exact I).
  intros _. eapply signed_not_nan, SFdiv_quotient_signed.
Qed.

(** A finite number over an infinite divisor. *)
Lemma SFdiv_infinity_not_nan a s :
  SFfinite a -> SFnot_nan (SF64div a (S754_infinity s)).
Proof. destruct a; simpl; try contradiction; auto. Qed.

Lemma SFadd_nonneg a b :
  SFnonneg a -> SFnonneg b -> SFnonneg (SF64add a b).
Proof.
  destruct a as [sa|[]| |[] ma ea], b as [sb|[]| |[] mb eb]; simpl;
    try contradiction; auto.
  - intros _ _. destruct sa, sb; exact I.
  - intros _ _. apply signed_false_SFnonneg, binary_round_signed.
Qed.

Lemma SFmul_nonneg a m e :
  SFnonneg a -> SFnonneg (SF64mul a (S754_finite false m e)).
Proof.
  destruct a as [sa|[]| |[] ma ea]; simpl; try contradiction; auto.
  intros _. apply signed_false_SFnonneg, binary_round_aux_signed. lia.
Qed.

Lemma SFdiv_nonneg a m e :
  SFnonneg a -> SFnonneg (SF64div a (S754_finite false m e)).
Proof.
  destruct a as [sa|[]| |[] ma ea]; try contradiction; try (intros _; exact I).
  intros _.
  apply signed_false_SFnonneg, (SFdiv_quotient_signed false ma ea false m e).
Qed.

(** *** The same closures on numbers *)

Lemma nonneg_not_nan x : nonneg x -> not_nan x.
Proof. rewrite nonneg_spec, not_nan_spec. apply SFnonneg_not_nan. Qed.

Lemma finite_not_nan x : finite x -> not_nan x.
Proof. rewrite finite_spec, not_nan_spec. apply SFfinite_not_nan. Qed.

Lemma positive_nonneg x : positive x -> nonneg x.
Proof.
  rewrite positive_spec, nonneg_spec. intros (m & e & ->). exact I.
Qed.

Lemma positive_finite x : positive x -> finite x.
Proof.
  rewrite positive_spec, finite_spec. intros (m & e & ->). exact I.
Qed.

Lemma add_nonneg x y : nonneg x -> nonneg y -> nonneg (x + y).
Proof. rewrite !nonneg_spec, FloatAxioms.add_spec. apply SFadd_nonneg. Qed.

Lemma mul_nonneg x c : nonneg x -> positive c -> nonneg (x * c).
Proof.
  rewrite !nonneg_spec, positive_spec, FloatAxioms.mul_spec.
  intros Hx (m & e & ->). apply SFmul_nonneg, Hx.
Qed.

Lemma div_nonneg x c : nonneg x -> positive c -> nonneg (x / c).
Proof.
  rewrite !nonneg_spec, positive_spec, FloatAxioms.div_spec.
  intros Hx (m & e & ->). apply SFdiv_nonneg, Hx.
Qed.

Lemma add_not_nan x y : not_nan x -> finite y -> not_nan (x + y).
Proof.
  rewrite !not_nan_spec, finite_spec, FloatAxioms.add_spec.
  apply SFadd_not_nan.
Qed.

Lemma add_finite_not_nan x y : finite x -> not_nan y -> not_nan (x + y).
Proof.
  rewrite !not_nan_spec, finite_spec, FloatAxioms.add_spec.
  apply SFadd_finite_not_nan.
Qed.

Lemma sub_not_nan x y : not_nan x -> finite y -> not_nan (x - y).
Proof.
  rewrite !not_nan_spec, finite_spec, FloatAxioms.sub_spec.
  apply SFsub_not_nan.
Qed.

Lemma sub_finite_not_nan x y : finite x -> not_nan y -> not_nan (x - y).
Proof.
  rewrite !not_nan_spec, finite_spec, FloatAxioms.sub_spec.
  apply SFsub_finite_not_nan.
Qed.

(** A finite divisor or factor other than zero. *)
Lemma finite_truthy_spec c :
  finite c -> JS.truthy c = true ->
  exists s m e, Prim2SF c = S754_finite s m e.
Proof.
  rewrite finite_spec, truthy_spec.
  intros Hf [[s E]|(s & m & e & E)]; [|eauto].
  rewrite E in Hf. contradiction.
Qed.

Lemma mul_not_nan x c :
  not_nan x -> finite c -> JS.truthy c = true -> not_nan (x * c).
Proof.
  intros Hx Hf Ht. destruct (finite_truthy_spec c Hf Ht) as (s & m & e & E).
  revert Hx. rewrite !not_nan_spec, FloatAxioms.mul_spec, E.
  apply SFmul_not_nan.
Qed.

Lemma div_not_nan x d :
  not_nan x -> finite d -> JS.truthy d = true -> not_nan (x / d).
Proof.
  intros Hx Hf Ht. destruct (finite_truthy_spec d Hf Ht) as (s & m & e & E).
  revert Hx. rewrite !not_nan_spec, FloatAxioms.div_spec, E.
  apply SFdiv_not_nan.
Qed.

Lemma div_finite_not_nan x d :
  finite x -> JS.truthy d = true -> not_nan (x / d).
Proof.
  rewrite finite_spec, not_nan_spec, truthy_spec, FloatAxioms.div_spec.
  intros Hx [[s E]|(s & m & e & E)]; rewrite E.
  - apply SFdiv_infinity_not_nan, Hx.
  - apply SFdiv_not_nan, SFfinite_not_nan, Hx.
Qed.

Lemma abs_not_nan x : not_nan x -> not_nan (abs x).
Proof.
  rewrite !not_nan_spec, FloatAxioms.abs_spec.
  destruct (Prim2SF x); simpl; auto.
Qed.

(** *** The guards and [Math] functions *)

Lemma or_finite x d : finite x -> finite d -> finite (x || d).
Proof. intros Hx Hd. unfold JS.or. destruct (JS.truthy x); assumption. Qed.

Lemma or_truthy x d : JS.truthy d = true -> JS.truthy (x || d) = true.
Proof.
  intros Hd. unfold JS.or. destruct (JS.truthy x) eqn:E; assumption.
Qed.

(** A nonnegative finite divisor, once guarded, is positive. *)
Lemma or_one_positive x : nonneg x -> finite x -> positive (x || 1).
Proof.
  intros Hn Hf. unfold JS.or. destruct (JS.truthy x) eqn:Ht.
  - apply positive_spec.
    destruct (finite_truthy_spec x Hf Ht) as (s & m & e & E).
    apply nonneg_spec in Hn. rewrite E in Hn. destruct s; [contradiction|].
    eauto.
  - split; reflexivity.
Qed.

Lemma ltb_leb x y : (x <? y) = true -> (x <=? y) = true.
Proof.
  rewrite FloatAxioms.ltb_spec, FloatAxioms.leb_spec. unfold SFltb, SFleb.
  destruct (SFcompare _ _) as [[]|]; auto.
Qed.

Lemma Math_max_zero_nonneg y : not_nan y -> nonneg (JS.Math_max 0 y).
Proof.
  unfold not_nan, nonneg, JS.Math_max, JS.geb. intros ->.
  change (is_nan 0 || false)%bool with false. cbv iota.
  destruct (0 <? y) eqn:E1; [apply ltb_leb, E1|].
  destruct (y <? 0); reflexivity.
Qed.

Lemma Math_min_nonneg y : nonneg y -> nonneg (JS.Math_min 100 y).
Proof.
  intros Hy. pose proof (nonneg_not_nan y Hy) as Hn.
  unfold not_nan in Hn. unfold JS.Math_min. rewrite Hn.
  change (is_nan 100 || false)%bool with false. cbv iota.
  destruct (100 <? y); [reflexivity|].
  destruct (y <? 100); [exact Hy|exact Hy].
Qed.

Lemma of_uint63_nonneg n : nonneg (of_uint63 n).
Proof.
  rewrite nonneg_spec, of_uint63_spec.
  pose proof (Uint63.to_Z_bounded n) as [H _].
  destruct (Uint63.to_Z n) as [|p|p]; simpl; [exact I| |lia].
  apply signed_false_SFnonneg, binary_round_signed.
Qed.

Lemma Math_round_nonneg x : nonneg x -> nonneg (JS.Math_round x).
Proof.
  intros Hx. unfold JS.Math_round.
  pose proof Hx as Hs. apply nonneg_spec in Hs.
  destruct (Prim2SF x) as [s|s| |s m e] eqn:E; try exact Hx.
  destruct (0 <=? e)%Z; [exact Hx|]. cbv zeta.
  destruct s; [contradiction|].
  set (r := Z.shiftr _ _).
  assert (Hr : (0 <= r)%Z).
  { subst r. apply Z.shiftr_nonneg.
    pose proof (Z.shiftl_nonneg 1 (- e)). lia. }
  destruct (Z.eqb_spec r 0); [reflexivity|].
  unfold JS.of_Z. destruct (Z.ltb_spec r 0); [lia|].
  apply of_uint63_nonneg.
Qed.

End SignFacts.

(** ** RatioCalculator: every field in closed form *)

(** What [calculateFinancialRatios] leaves in each field, written field by
    field from the assignments of the source. *)
Definition ratio_formula (metrics : Partial FinancialMetrics)
    (f : CalculatedRatios) : JS.value :=
  let over n d := x ← metrics n; y ← metrics d; Some (x / (y || 1)) in
  let percent n d :=
    x ← metrics n; y ← metrics d; Some ((x / (y || 1)) * 100) in
  let days n d :=
    x ← metrics n; y ← metrics d; Some (365 / ((x / (y || 1)) || 1)) in
  match f with
  | currentRatio => over currentAssets currentLiabilities
  | quickRatio =>
      ca ← metrics currentAssets; inv ← metrics inventory;
      cl ← metrics currentLiabilities;
      Some ((ca - (inv || 0)) / (cl || 1))
  | cashRatio => None
  | workingCapital =>
      ca ← metrics currentAssets; cl ← metrics currentLiabilities;
      Some (ca - cl)
  | profitMargin => percent netIncome revenue
  | operatingMargin => percent operatingIncome revenue
  | returnOnAssets => percent netIncome assets
  | returnOnEquity => percent netIncome equity
  | assetTurnover => over revenue assets
  | debtToEquityRatio => over debt equity
  | debtToAssetsRatio => over debt assets
  | equityRatio => percent equity assets
  | debtServiceCoverageRatio =>
      oi ← metrics operatingIncome; std ← metrics shortTermDebt;
      ltd ← metrics longTermDebt;
      Some (oi / (((std || 0) + (ltd || 0)
                   + JS.or_undef (metrics interestExpense) 0) || 1))
  | receivablesTurnover => over revenue accountsReceivable
  | payablesTurnover => over cogs accountsPayable
  | inventoryTurnover => over cogs inventory
  | daysInventoryOutstanding => days cogs inventory
  | daysReceivableOutstanding => days revenue accountsReceivable
  | daysPayableOutstanding => days cogs accountsPayable
  | cashConversionCycle =>
      dio ← days cogs inventory;
      dro ← days revenue accountsReceivable;
      dpo ← days cogs accountsPayable;
      Some ((dio || 0) + (dro || 0) - (dpo || 0))
  end.

(** The metrics a field of the output is computed from. *)
Definition requires (f : CalculatedRatios) : list FinancialMetrics :=
  match f with
  | currentRatio | workingCapital => [currentAssets; currentLiabilities]
  | quickRatio => [currentAssets; inventory; currentLiabilities]
  | cashRatio => []
  | profitMargin => [netIncome; revenue]
  | operatingMargin => [operatingIncome; revenue]
  | returnOnAssets => [netIncome; assets]
  | returnOnEquity => [netIncome; equity]
  | assetTurnover => [revenue; assets]
  | debtToEquityRatio => [debt; equity]
  | debtToAssetsRatio => [debt; assets]
  | equityRatio => [equity; assets]
  | debtServiceCoverageRatio => [operatingIncome; shortTermDebt; longTermDebt]
  | receivablesTurnover | daysReceivableOutstanding =>
      [revenue; accountsReceivable]
  | payablesTurnover | daysPayableOutstanding => [cogs; accountsPayable]
  | inventoryTurnover | daysInventoryOutstanding => [cogs; inventory]
  | cashConversionCycle =>
      [cogs; inventory; revenue; accountsReceivable; accountsPayable]
  end.

(** The divisions [n / (d || 1)] of two metrics: numerator, divisor, and
    whether the quotient is scaled to a percentage. *)
Definition guarded_division (f : CalculatedRatios)
  : option (FinancialMetrics * FinancialMetrics * bool) :=
  match f with
  | currentRatio => Some (currentAssets, currentLiabilities, false)
  | profitMargin => Some (netIncome, revenue, true)
  | operatingMargin => Some (operatingIncome, revenue, true)
  | returnOnAssets => Some (netIncome, assets, true)
  | returnOnEquity => Some (netIncome, equity, true)
  | assetTurnover => Some (revenue, assets, false)
  | debtToEquityRatio => Some (debt, equity, false)
  | debtToAssetsRatio => Some (debt, assets, false)
  | equityRatio => Some (equity, assets, true)
  | receivablesTurnover => Some (revenue, accountsReceivable, false)
  | inventoryTurnover => Some (cogs, inventory, false)
  | payablesTurnover => Some (cogs, accountsPayable, false)
  | _ => None
  end.

(** [P] holds of an optional number when it is there. *)
Definition when_present (P : float -> Prop) (v : JS.value) : Prop :=
  match v with
  | Some x => P x
  | None => True
  end.

(** Every metric that is present is a finite number. *)
Definition all_finite (metrics : Partial FinancialMetrics) : Prop :=
  forall g x, metrics g = Some x -> Sign.finite x.

Lemma calculateFinancialRatios_formula
    (metrics : Partial FinancialMetrics) (f : CalculatedRatios) :
  calculateFinancialRatios metrics f = ratio_formula metrics f.
Proof.
  destruct f; read_ratio; cbn [ratio_formula];
    repeat match goal with
    | |- context [metrics ?g] => destruct (metrics g)
    end; reflexivity.
Qed.

(** X1. A field is in the output of [calculateFinancialRatios] exactly
    when all the metrics it is computed from are present; [cashRatio] never
    is. *)
Theorem ratio_present_iff_inputs
    (metrics : Partial FinancialMetrics) (f : CalculatedRatios) :
  is_Some (calculateFinancialRatios metrics f) <->
  f <> cashRatio /\ Forall (fun g => is_Some (metrics g)) (requires f).
Proof.
  rewrite calculateFinancialRatios_formula.
  destruct f; cbn [ratio_formula requires];
    rewrite ?Forall_cons, ?Forall_nil;
    repeat match goal with
    | |- context [metrics ?g] => destruct (metrics g)
    end; cbn;
    rewrite ?is_Some_alt; intuition (try discriminate; eauto).
Qed.

(** Proves that a quotient, product or difference of finite metrics is
    not NaN. *)
Ltac no_nan :=
  repeat first
    [ assumption
    | reflexivity
    | apply SignFacts.mul_not_nan
    | apply SignFacts.div_finite_not_nan; [solve [assumption|reflexivity]|]
    | apply SignFacts.div_not_nan
    | apply SignFacts.sub_not_nan
    | apply SignFacts.finite_not_nan
    | apply SignFacts.or_finite
    | apply SignFacts.or_truthy ].

(** With finite metrics, a field other than [cashConversionCycle] that is
    present is not NaN. *)
Lemma finite_metrics_ratio_no_nan
    (metrics : Partial FinancialMetrics) (f : CalculatedRatios) :
  all_finite metrics -> f <> cashConversionCycle ->
  when_present Sign.not_nan (calculateFinancialRatios metrics f).
Proof.
  intros Hfin Hf. rewrite calculateFinancialRatios_formula.
  destruct f; try contradiction; cbn [ratio_formula];
    repeat match goal with
    | |- context [metrics ?g] =>
        let E := fresh "E" in
        destruct (metrics g) eqn:E; [apply Hfin in E|]
    end; cbn; try exact I; no_nan.
Qed.

(** X2. With finite metrics, no field of the output other than
    [cashConversionCycle] is NaN: the [|| 1] guards leave no [0 / 0]. *)
Theorem ratios_not_nan
    (metrics : Partial FinancialMetrics) (f : CalculatedRatios) (x : float) :
  all_finite metrics ->
  f <> cashConversionCycle ->
  calculateFinancialRatios metrics f = Some x ->
  Sign.not_nan x.
Proof.
  intros Hfin Hf E.
  pose proof (finite_metrics_ratio_no_nan metrics f Hfin Hf) as H.
  rewrite E in H. exact H.
Qed.

Lemma ratios_not_nan_witness :
  let metrics : Partial FinancialMetrics :=
    object [(netIncome, 0); (revenue, 0)] in
  (all_finite metrics /\ profitMargin <> cashConversionCycle /\
   calculateFinancialRatios metrics profitMargin = Some 0) /\
  Sign.not_nan 0.
Proof.
  assert (Hfin : all_finite (object [(netIncome, 0); (revenue, 0)])).
  { intros g x. destruct g; cbn; intros [= <-]; reflexivity. }
  split; [split; [exact Hfin|split; [discriminate|reflexivity]]|].
  apply (ratios_not_nan (object [(netIncome, 0); (revenue, 0)])
           profitMargin 0 Hfin); [discriminate|reflexivity].
Defined.

(** [cashConversionCycle] is the exception: a tiny cost of goods makes two
    of the days-metrics infinite, and their difference is NaN. *)
Example cashConversionCycle_nan_finite_metrics :
  calculateFinancialRatios
    (object [(cogs, 1e-300); (inventory, 1e10); (accountsPayable, 1e10);
             (revenue, 1); (accountsReceivable, 1)]) cashConversionCycle
  = Some nan.
Proof. vm_compute. reflexivity. Qed.

(** X3. A divisor that is zero is replaced by [1] in each of the twelve
    two-metric ratios: the ratio is then the numerator itself, times 100
    for the percentages. *)
Theorem ratio_zero_divisor
    (metrics : Partial FinancialMetrics) (f : CalculatedRatios)
    (n d : FinancialMetrics) (pct : bool) (x z : float) :
  guarded_division f = Some (n, d, pct) ->
  metrics n = Some x -> metrics d = Some z -> (z =? 0) = true ->
  calculateFinancialRatios metrics f = Some (if pct then x * 100 else x).
Proof.
  intros Hg Hn Hd Hz. rewrite calculateFinancialRatios_formula.
  destruct f; try discriminate Hg; injection Hg as <- <- <-;
    cbn [ratio_formula]; rewrite ?Hn, ?Hd; cbn;
    rewrite (or_one_zero z Hz), IEEEFacts.div_one; reflexivity.
Qed.

Lemma ratio_zero_divisor_witness :
  let metrics : Partial FinancialMetrics :=
    object [(netIncome, 5000); (revenue, 0)] in
  (guarded_division profitMargin = Some (netIncome, revenue, true) /\
   metrics netIncome = Some 5000 /\ metrics revenue = Some 0 /\
   (0 =? 0) = true) /\
  calculateFinancialRatios metrics profitMargin = Some (5000 * 100).
Proof.
  split; [repeat split|].
  apply (ratio_zero_divisor (object [(netIncome, 5000); (revenue, 0)])
           profitMargin netIncome revenue true 5000 0); reflexivity.
Defined.

(** The turnover behind each days-metric. *)
Definition turnover_of (f : CalculatedRatios) : option CalculatedRatios :=
  match f with
  | daysInventoryOutstanding => Some inventoryTurnover
  | daysReceivableOutstanding => Some receivablesTurnover
  | daysPayableOutstanding => Some payablesTurnover
  | _ => None
  end.

(** X4. A days-metric is present exactly when its turnover is, it is never
    NaN, and it is 365 when the turnover is zero or NaN. *)
Theorem days_of_turnover
    (metrics : Partial FinancialMetrics) (f t : CalculatedRatios) :
  turnover_of f = Some t ->
  let ratios := calculateFinancialRatios metrics in
  match ratios t with
  | Some turnover =>
      exists days, ratios f = Some days /\ Sign.not_nan days /\
                   (JS.truthy turnover = false -> days = 365)
  | None => ratios f = None
  end.
Proof.
  intros Ht ratios. subst ratios. rewrite !calculateFinancialRatios_formula.
  destruct f; try discriminate Ht; injection Ht as <-; cbn [ratio_formula];
    repeat match goal with
    | |- context [metrics ?g] => destruct (metrics g)
    end; cbn; try reflexivity;
    (eexists; split; [reflexivity|split;
      [apply days_not_nan, or_one_truthy
      |intros Hf; unfold JS.or at 1; rewrite Hf; reflexivity]]).
Qed.

Lemma days_of_turnover_witness :
  let ratios :=
    calculateFinancialRatios (object [(cogs, 0); (inventory, 50000)]) in
  turnover_of daysInventoryOutstanding = Some inventoryTurnover /\
  match ratios inventoryTurnover with
  | Some turnover =>
      exists days, ratios daysInventoryOutstanding = Some days /\
                   Sign.not_nan days /\
                   (JS.truthy turnover = false -> days = 365)
  | None => ratios daysInventoryOutstanding = None
  end.
Proof.
  split; [reflexivity|].
  apply (days_of_turnover (object [(cogs, 0); (inventory, 50000)])
           daysInventoryOutstanding inventoryTurnover eq_refl).
Defined.

(** The metrics that no ratio is computed from. *)
Definition unread (g : FinancialMetrics) : bool :=
  match g with
  | liabilities | taxExpense | cashFlow => true
  | _ => false
  end.

(** X5. [calculateFinancialRatios] never reads [liabilities],
    [taxExpense] or [cashFlow]: two inputs that agree on all other metrics
    give the same output. *)
Theorem ratios_ignore_unread
    (m1 m2 : Partial FinancialMetrics) (f : CalculatedRatios) :
  (forall g, unread g = false -> m1 g = m2 g) ->
  calculateFinancialRatios m1 f = calculateFinancialRatios m2 f.
Proof.
  intros H. rewrite !calculateFinancialRatios_formula.
  destruct f; cbn [ratio_formula];
    repeat match goal with
    | |- context [m1 ?g] => rewrite (H g eq_refl)
    end; reflexivity.
Qed.

Lemma ratios_ignore_unread_witness :
  let m1 : Partial FinancialMetrics :=
    object [(liabilities, 700000); (currentAssets, 100000);
            (currentLiabilities, 50000)] in
  let m2 : Partial FinancialMetrics :=
    object [(currentAssets, 100000); (currentLiabilities, 50000)] in
  (forall g, unread g = false -> m1 g = m2 g) /\
  calculateFinancialRatios m1 currentRatio
  = calculateFinancialRatios m2 currentRatio.
Proof.
  cbv zeta.
  assert (H : forall g, unread g = false ->
                object [(liabilities, 700000); (currentAssets, 100000);
                        (currentLiabilities, 50000)] g
                = object [(currentAssets, 100000);
                          (currentLiabilities, 50000)] g)
    by (intros g; destruct g; cbn; (discriminate || reflexivity)).
  split; [exact H|].
  apply (ratios_ignore_unread _ _ currentRatio H).
Defined.

(** The ratios read by the credit score, and by the risk assessment. *)
Definition scored (f : CalculatedRatios) : bool :=
  match f with
  | currentRatio | profitMargin | returnOnEquity | debtToEquityRatio
  | debtServiceCoverageRatio | cashConversionCycle | assetTurnover => true
  | _ => false
  end.

Definition assessed (f : CalculatedRatios) : bool :=
  match f with
  | currentRatio | quickRatio | profitMargin | returnOnEquity
  | debtToEquityRatio | debtServiceCoverageRatio | cashConversionCycle
  | inventoryTurnover => true
  | _ => false
  end.

(** X6. Neither [calculateCreditScore] nor [assessFinancialRisks] uses
    its [metrics] argument, and each reads seven, respectively eight,
    ratios only: inputs that agree on those give the same result. *)
Theorem scorers_read_only
    (r1 r2 : Partial CalculatedRatios) (m1 m2 : Partial FinancialMetrics)
    (paymentHistoryScore growthScore : JS.value) :
  ((forall f, scored f = true -> r1 f = r2 f) ->
   calculateCreditScore r1 m1 paymentHistoryScore growthScore
   = calculateCreditScore r2 m2 paymentHistoryScore growthScore) /\
  ((forall f, assessed f = true -> r1 f = r2 f) ->
   assessFinancialRisks r1 m1 = assessFinancialRisks r2 m2).
Proof.
  split; intros H.
  - unfold calculateCreditScore.
    repeat match goal with
    | |- context [r1 ?f] => rewrite (H f eq_refl)
    end. reflexivity.
  - unfold assessFinancialRisks.
    repeat match goal with
    | |- context [r1 ?f] => rewrite (H f eq_refl)
    end. reflexivity.
Qed.

(** ** CreditScorer: when the score cannot be negative *)

(** Proves that a sum of weighted nonnegative scores is nonnegative, and
    that the argument of a [Math.max(0, ...)] is not NaN. *)
Ltac score_bound :=
  repeat first
    [ assumption
    | reflexivity
    | apply SignFacts.add_nonneg
    | apply SignFacts.mul_nonneg
    | apply SignFacts.div_nonneg
    | apply SignFacts.Math_min_nonneg
    | apply SignFacts.Math_max_zero_nonneg
    | apply SignFacts.Math_round_nonneg
    | apply SignFacts.sub_finite_not_nan; [reflexivity|]
    | apply SignFacts.add_finite_not_nan; [reflexivity|]
    | apply SignFacts.sub_not_nan
    | apply SignFacts.mul_not_nan
    | apply SignFacts.div_not_nan
    | apply SignFacts.abs_not_nan
    | (split; reflexivity) ].

(** Cases on an optional ratio and on the ladder of its score. *)
Ltac score_cases :=
  repeat match goal with
  | H : when_present _ ?v |- context [match ?v with Some _ => _ | None => _ end] =>
      destruct v; cbn [when_present] in H
  end;
  repeat match goal with
  | |- context [if ?c then _ else _] => destruct c
  end.

Lemma credit_factors_nonneg
    (ratios : Partial CalculatedRatios) (metrics : Partial FinancialMetrics)
    (paymentHistory growthRate : JS.value) :
  when_present Sign.not_nan (ratios currentRatio) ->
  when_present Sign.not_nan (ratios profitMargin) ->
  when_present Sign.not_nan (ratios debtToEquityRatio) ->
  when_present Sign.not_nan (ratios cashConversionCycle) ->
  when_present Sign.nonneg (ratios returnOnEquity) ->
  when_present Sign.nonneg (ratios debtServiceCoverageRatio) ->
  when_present Sign.nonneg (ratios assetTurnover) ->
  Sign.nonneg (default 50 paymentHistory) ->
  Sign.nonneg (default 50 growthRate) ->
  let r := calculateCreditScore ratios metrics paymentHistory growthRate in
  Sign.nonneg (liquidityScore (factors r)) /\
  Sign.nonneg (profitabilityScore (factors r)) /\
  Sign.nonneg (leverageScore (factors r)) /\
  Sign.nonneg (efficiencyScore (factors r)) /\
  Sign.nonneg (score r).
Proof.
  intros Hcr Hpm Hde Hccc Hroe Hdscr Hato Hph Hg r. subst r.
  unfold calculateCreditScore. cbv zeta.
  cbn [factors score liquidityScore profitabilityScore leverageScore
       efficiencyScore].
  match goal with
  | |- context [weightedScore
                  {| liquidityScore := ?L; profitabilityScore := ?P;
                     leverageScore := ?V; efficiencyScore := ?E;
                     growthScore := _; paymentHistoryScore := _ |}] =>
      assert (HL : Sign.nonneg L) by (score_cases; score_bound);
      assert (HP : Sign.nonneg P) by (score_cases; score_bound);
      assert (HV : Sign.nonneg V) by (score_cases; score_bound);
      assert (HE : Sign.nonneg E) by (score_cases; score_bound);
      generalize dependent L; generalize dependent P;
      generalize dependent V; generalize dependent E
  end.
  intros E HE V HV P HP L HL. repeat split; try assumption.
  unfold weightedScore.
  cbn [liquidityScore profitabilityScore leverageScore efficiencyScore
       growthScore paymentHistoryScore].
  score_bound.
Qed.

(** X7. The score and the four computed factors are nonnegative when the
    ratios scored through [Math.min(100, ...)] alone ([returnOnEquity],
    [debtServiceCoverageRatio], [assetTurnover]) are nonnegative or absent,
    the other ratios read are not NaN, and the two supplied scores are
    nonnegative. *)
Theorem calculateCreditScore_nonnegative
    (ratios : Partial CalculatedRatios) (metrics : Partial FinancialMetrics)
    (paymentHistoryScore growthScore : JS.value) :
  when_present Sign.not_nan (ratios currentRatio) ->
  when_present Sign.not_nan (ratios profitMargin) ->
  when_present Sign.not_nan (ratios debtToEquityRatio) ->
  when_present Sign.not_nan (ratios cashConversionCycle) ->
  when_present Sign.nonneg (ratios returnOnEquity) ->
  when_present Sign.nonneg (ratios debtServiceCoverageRatio) ->
  when_present Sign.nonneg (ratios assetTurnover) ->
  Sign.nonneg (default 50 paymentHistoryScore) ->
  Sign.nonneg (default 50 growthScore) ->
  let r := calculateCreditScore ratios metrics paymentHistoryScore
             growthScore in
  Sign.nonneg (liquidityScore (factors r)) /\
  Sign.nonneg (profitabilityScore (factors r)) /\
  Sign.nonneg (leverageScore (factors r)) /\
  Sign.nonneg (efficiencyScore (factors r)) /\
  Sign.nonneg (score r).
Proof. apply credit_factors_nonneg. Qed.

Lemma calculateCreditScore_nonnegative_witness :
  let ratios : Partial CalculatedRatios :=
    object [(currentRatio, 0.5); (profitMargin, -10);
            (debtToEquityRatio, 3); (cashConversionCycle, 120);
            (returnOnEquity, 0); (assetTurnover, 0.3)] in
  Sign.nonneg
    (score (calculateCreditScore ratios empty (Some 20) (Some 30))).
Proof.
  apply (calculateCreditScore_nonnegative
           (object [(currentRatio, 0.5); (profitMargin, -10);
                    (debtToEquityRatio, 3); (cashConversionCycle, 120);
                    (returnOnEquity, 0); (assetTurnover, 0.3)])
           empty (Some 20) (Some 30));
    first [exact I | reflexivity].
Defined.

(** ** RiskAssessor: bounds *)

(** Two different numbers: [H] equates numbers of which one is zero and
    the other is not. *)
Ltac different_numbers H :=
  apply (f_equal is_zero) in H; vm_compute in H; discriminate H.

(** X8. [riskScore] lies between 0 and 100; it is 0 exactly when no risk
    factor is reported, and at least 10 otherwise. *)
Theorem assessFinancialRisks_bounds
    (ratios : Partial CalculatedRatios) (metrics : Partial FinancialMetrics) :
  let r := assessFinancialRisks ratios metrics in
  (riskScore r >=? 0) = true /\ (riskScore r <=? 100) = true /\
  (riskFactors r = [] <-> riskScore r = 0) /\
  (riskFactors r <> [] -> (riskScore r >=? 10) = true).
Proof.
  unfold assessFinancialRisks.
  repeat match goal with
  | |- context [defined_and ?v ?f] =>
      let b := fresh "b" in
      generalize (defined_and v f); intros b
  end.
  match goal with
  | |- context [riskScore ?e] => set (r := e)
  end.
  destruct b, b0, b1, b2, b3, b4, b5, b6; vm_compute in r; subst r;
    cbn [riskScore riskFactors];
    (split; [reflexivity|]); (split; [reflexivity|]);
    (split; [split; intros H; first [reflexivity | discriminate H
                                    | different_numbers H]|]);
    intros H; first [reflexivity | exfalso; apply H; reflexivity].
Qed.

(** ** CostOptimizer: shape of the list *)

(** The three categories in the order of the checks. *)
Definition categories : list string :=
  ["Operating Expenses"; "Cost of Goods Sold"; "Accounts Receivable"].

Lemma or_undef_truthy (v : JS.value) (d : float) :
  JS.truthy d = true -> JS.truthy (JS.or_undef v d) = true.
Proof.
  intros Hd. destruct v as [x|]; simpl; [|exact Hd].
  unfold JS.or. destruct (JS.truthy x) eqn:E; assumption.
Qed.

(** X9. The recommendations come in the order of the three checks, each
    category at most once: their categories form a sublist of Operating
    Expenses, Cost of Goods Sold, Accounts Receivable. *)
Theorem recommendations_in_order
    (ratios : Partial CalculatedRatios) (metrics : Partial FinancialMetrics)
    (benchmarks : gmap string float) :
  sublist
    (category <$>
       generateCostOptimizationRecommendations ratios metrics benchmarks)
    categories.
Proof.
  unfold categories. each_recommendation; cbn;
    repeat first [apply sublist_nil | apply sublist_skip | apply sublist_cons].
Qed.

(** X10. No recommendation has priority [low]. *)
Theorem priority_never_low
    (ratios : Partial CalculatedRatios) (metrics : Partial FinancialMetrics)
    (benchmarks : gmap string float) :
  Forall (fun r => priority r <> low)
    (generateCostOptimizationRecommendations ratios metrics benchmarks).
Proof.
  each_recommendation; cbn [priority];
    match goal with
    | |- (if ?c then _ else _) <> _ => destruct c; discriminate
    end.
Qed.

(** X11. The benchmark a recommendation reports is never [0] nor NaN, so
    the overage percentage of the text, a division by that benchmark, is
    never a division by zero. *)
Theorem benchmarkValue_truthy
    (ratios : Partial CalculatedRatios) (metrics : Partial FinancialMetrics)
    (benchmarks : gmap string float) :
  Forall (fun r => JS.truthy (benchmarkValue r) = true)
    (generateCostOptimizationRecommendations ratios metrics benchmarks).
Proof.
  each_recommendation; cbn [benchmarkValue];
    apply or_undef_truthy; reflexivity.
Qed.

(** X12. Without [revenue] no monetary recommendation is made: the list
    holds at most the Accounts Receivable recommendation, whose
    [savingsPotential] is [0]; it is empty when
    [daysReceivableOutstanding] is absent too. *)
Theorem recommendations_without_revenue
    (ratios : Partial CalculatedRatios) (metrics : Partial FinancialMetrics)
    (benchmarks : gmap string float) :
  metrics revenue = None ->
  let rs := generateCostOptimizationRecommendations ratios metrics
              benchmarks in
  (length rs <= 1)%nat /\
  Forall (fun r => category r = "Accounts Receivable" /\
                   savingsPotential r = 0) rs /\
  (ratios daysReceivableOutstanding = None -> rs = []).
Proof.
  intros Hrev rs. subst rs.
  unfold generateCostOptimizationRecommendations. cbv zeta. rewrite Hrev.
  destruct (metrics operatingExpenses), (metrics cogs),
    (ratios daysReceivableOutstanding) as [dro|];
    try (destruct (dro >? _));
    cbn; repeat split; try lia; try discriminate;
    repeat constructor.
Qed.

Lemma recommendations_without_revenue_witness :
  let metrics : Partial FinancialMetrics :=
    object [(operatingExpenses, 400000); (cogs, 700000)] in
  let rs := generateCostOptimizationRecommendations
              (object [(daysReceivableOutstanding, 90)]) metrics ∅ in
  metrics revenue = None /\
  (length rs <= 1)%nat /\
  Forall (fun r => category r = "Accounts Receivable" /\
                   savingsPotential r = 0) rs /\
  (object [(daysReceivableOutstanding, 90)] daysReceivableOutstanding = None
   -> rs = []).
Proof.
  split; [reflexivity|].
  apply (recommendations_without_revenue
           (object [(daysReceivableOutstanding, 90)])
           (object [(operatingExpenses, 400000); (cogs, 700000)]) ∅).
  reflexivity.
Defined.

(** ** TrendAnalyzer: edge values and signs *)

(** The key of each growth figure and the metric it is computed from. *)
Definition trendFields : list (string * FinancialMetrics) :=
  [("revenueGrowth", revenue); ("profitGrowth", netIncome);
   ("assetGrowth", assets); ("equityGrowth", equity)].

Lemma trend_entry
    (currentMetrics previousMetrics : Partial FinancialMetrics)
    (key : string) (field : FinancialMetrics) :
  In (key, field) trendFields ->
  calculateTrendAnalysis currentMetrics previousMetrics !! key =
    (c ← currentMetrics field; p ← previousMetrics field;
     Some ((c - p) / p * 100)).
Proof.
  intros [[= <- <-]|[[= <- <-]|[[= <- <-]|[[= <- <-]|[]]]]]; read_trend.
Qed.

Module TrendFacts.
Import IEEE IEEEFacts Sign SignFacts.

Lemma SFgrowth_zero_previous c s :
  ~ SFfinite
      (SF64mul (SF64div (SF64sub c (S754_zero s)) (S754_zero s))
         (S754_finite false 7036874417766400 (-46))).
Proof.
  destruct c as [sc|sc| |sc m e]; simpl; auto.
  destruct sc, s; simpl; auto.
Qed.

Lemma growth_zero_previous c p :
  is_zero p = true -> is_finite (growth c p) = false.
Proof.
  intros Hz. apply is_zero_spec in Hz as [s Hp].
  destruct (is_finite (growth c p)) eqn:E; [|reflexivity].
  apply finite_spec in E. unfold growth in E.
  rewrite FloatAxioms.mul_spec, FloatAxioms.div_spec, FloatAxioms.sub_spec,
    Hp in E.
  change (Prim2SF 100) with (S754_finite false 7036874417766400 (-46)) in E.
  destruct (SFgrowth_zero_previous _ _ E).
Qed.

Lemma SFsub_diag s m e :
  SF64sub (S754_finite s m e) (S754_finite s m e) = S754_zero false.
Proof.
  unfold SF64sub, SFsub. cbv zeta. rewrite Z.sub_diag. reflexivity.
Qed.

Lemma growth_unchanged c :
  finite c -> JS.truthy c = true -> is_zero (growth c c) = true.
Proof.
  intros Hf Ht. destruct (finite_truthy_spec c Hf Ht) as (s & m & e & E).
  apply is_zero_spec. unfold growth.
  rewrite FloatAxioms.mul_spec, FloatAxioms.div_spec, FloatAxioms.sub_spec, E.
  rewrite SFsub_diag.
  change (Prim2SF 100) with (S754_finite false 7036874417766400 (-46)).
  simpl. eauto.
Qed.

(** The sign of a difference, the other way round. *)
Lemma binary_normalize_neg_signed m e :
  (m < 0)%Z -> signed true (binary_normalize prec emax m e false).
Proof.
  intros Hm. destruct m as [|p|p]; try lia. simpl.
  apply binary_round_signed.
Qed.

Lemma SFsub_signed_neg x y :
  valid_binary x = true -> valid_binary y = true ->
  SFltb x y = true -> signed true (SF64sub x y).
Proof.
  intros Vx Vy. unfold SFltb.
  destruct x as [sx|sx| |sx mx ex], y as [sy|sy| |sy my ey]; simpl;
    try discriminate;
    try (destruct sx; discriminate);
    try (destruct sy; discriminate);
    try (destruct sx, sy; simpl; (discriminate || reflexivity)).
  simpl in Vx, Vy. intros Hlt.
  apply binary_normalize_neg_signed.
  destruct (Z.compare_spec ex ey) as [Heq|Hl|Hg].
  - subst ey. rewrite Z.min_id.
    rewrite !shl_align_value by lia. rewrite Z.sub_diag, Z.pow_0_r.
    change (Pos.compare_cont Eq mx my) with (Pos.compare mx my) in Hlt.
    destruct (Pos.compare_spec mx my) as [Hc|Hc|Hc];
      destruct sy, sx; simpl in Hlt; cbn [cond_Zopp]; try discriminate; lia.
  - rewrite Z.min_l by lia.
    rewrite !shl_align_value by lia. rewrite Z.sub_diag, Z.pow_0_r.
    pose proof (aligned_lt my ey mx ex Vy Vx Hl) as Hal.
    destruct sy, sx; simpl in Hlt; cbn [cond_Zopp]; try discriminate; lia.
  - rewrite Z.min_r by lia.
    rewrite !shl_align_value by lia. rewrite Z.sub_diag, Z.pow_0_r.
    pose proof (aligned_lt mx ex my ey Vx Vy ltac:(lia)) as Hal.
    destruct sy, sx; simpl in Hlt; cbn [cond_Zopp]; try discriminate; lia.
Qed.

(** A quotient by, and a product with, a positive finite number keep the
    sign. *)
Lemma SFdiv_keeps_sign s a m e :
  signed s a -> signed s (SF64div a (S754_finite false m e)).
Proof.
  destruct a as [sa|sa| |sa ma ea]; simpl signed; intros H; subst;
    try contradiction.
  - simpl. apply xorb_false_r.
  - simpl. apply xorb_false_r.
  - pose proof (SFdiv_quotient_signed s ma ea false m e) as Hq.
    rewrite xorb_false_r in Hq. exact Hq.
Qed.

Lemma SFmul_keeps_sign s a m e :
  signed s a -> signed s (SF64mul a (S754_finite false m e)).
Proof.
  destruct a as [sa|sa| |sa ma ea]; simpl signed; intros H; subst;
    try contradiction; simpl; try apply xorb_false_r.
  rewrite xorb_false_r. apply binary_round_aux_signed. lia.
Qed.

Lemma signed_true_nonpos r :
  signed true r -> SFleb r (S754_zero false) = true.
Proof.
  destruct r as [s|s| |s m e]; simpl; intros H; subst; try reflexivity.
  contradiction.
Qed.

Lemma growth_signed c p (s : bool) :
  positive p ->
  (if s then SFltb (Prim2SF c) (Prim2SF p)
   else SFltb (Prim2SF p) (Prim2SF c)) = true ->
  signed s (Prim2SF (growth c p)).
Proof.
  intros Hp Hlt. apply positive_spec in Hp as (m & e & Hp).
  unfold growth.
  rewrite FloatAxioms.mul_spec, FloatAxioms.div_spec, FloatAxioms.sub_spec.
  change (Prim2SF 100) with (S754_finite false 7036874417766400 (-46)).
  apply SFmul_keeps_sign. rewrite Hp at 2. apply SFdiv_keeps_sign.
  destruct s.
  - apply SFsub_signed_neg; auto using Prim2SF_valid.
  - apply SFsub_signed; auto using Prim2SF_valid.
Qed.

Lemma growth_rise c p :
  positive p -> (c >? p) = true -> (growth c p >=? 0) = true.
Proof.
  intros Hp Hgt. unfold JS.gtb in Hgt. rewrite FloatAxioms.ltb_spec in Hgt.
  unfold JS.geb. rewrite FloatAxioms.leb_spec.
  change (Prim2SF 0) with (S754_zero false).
  apply signed_false_nonneg, (growth_signed c p false Hp Hgt).
Qed.

Lemma growth_fall c p :
  positive p -> (c <? p) = true -> (growth c p <=? 0) = true.
Proof.
  intros Hp Hlt. rewrite FloatAxioms.ltb_spec in Hlt.
  rewrite FloatAxioms.leb_spec.
  change (Prim2SF 0) with (S754_zero false).
  apply signed_true_nonpos, (growth_signed c p true Hp Hlt).
Qed.

End TrendFacts.

(** X13. There is no guard on the previous value: when it is zero, the
    growth figure is in the output and it is NaN or an infinity. *)
Theorem trend_previous_zero
    (currentMetrics previousMetrics : Partial FinancialMetrics)
    (key : string) (field : FinancialMetrics) (c p : float) :
  In (key, field) trendFields ->
  currentMetrics field = Some c -> previousMetrics field = Some p ->
  (p =? 0) = true ->
  exists g, calculateTrendAnalysis currentMetrics previousMetrics !! key
            = Some g /\ is_finite g = false.
Proof.
  intros Hk Hc Hp Hz. rewrite (trend_entry _ _ key field Hk), Hc, Hp. cbn.
  eexists; split; [reflexivity|].
  apply (TrendFacts.growth_zero_previous c p Hz).
Qed.

Lemma trend_previous_zero_witness :
  In ("revenueGrowth", revenue) trendFields /\
  exists g, calculateTrendAnalysis (object [(revenue, 120)])
              (object [(revenue, 0)]) !! "revenueGrowth" = Some g /\
            is_finite g = false.
Proof.
  split; [left; reflexivity|].
  apply (trend_previous_zero (object [(revenue, 120)])
           (object [(revenue, 0)]) "revenueGrowth" revenue 120 0);
    first [reflexivity | left; reflexivity].
Defined.

(** X14. A finite nonzero value that did not change has a growth of
    zero. *)
Theorem trend_unchanged
    (currentMetrics previousMetrics : Partial FinancialMetrics)
    (key : string) (field : FinancialMetrics) (v : float) :
  In (key, field) trendFields ->
  currentMetrics field = Some v -> previousMetrics field = Some v ->
  Sign.finite v -> JS.truthy v = true ->
  exists g, calculateTrendAnalysis currentMetrics previousMetrics !! key
            = Some g /\ (g =? 0) = true.
Proof.
  intros Hk Hc Hp Hf Ht. rewrite (trend_entry _ _ key field Hk), Hc, Hp. cbn.
  eexists; split; [reflexivity|].
  apply (TrendFacts.growth_unchanged v Hf Ht).
Qed.

Lemma trend_unchanged_witness :
  In ("assetGrowth", assets) trendFields /\
  exists g, calculateTrendAnalysis (object [(assets, 1000000)])
              (object [(assets, 1000000)]) !! "assetGrowth" = Some g /\
            (g =? 0) = true.
Proof.
  split; [do 2 right; left; reflexivity|].
  apply (trend_unchanged (object [(assets, 1000000)])
           (object [(assets, 1000000)]) "assetGrowth" assets 1000000);
    first [reflexivity | do 2 right; left; reflexivity].
Defined.

(** X15. Against a positive finite previous value, a rise gives a growth
    that is not negative and a fall one that is not positive. *)
Theorem trend_sign
    (currentMetrics previousMetrics : Partial FinancialMetrics)
    (key : string) (field : FinancialMetrics) (c p : float) :
  In (key, field) trendFields ->
  currentMetrics field = Some c -> previousMetrics field = Some p ->
  Sign.positive p ->
  exists g, calculateTrendAnalysis currentMetrics previousMetrics !! key
            = Some g /\
            ((c >? p) = true -> (g >=? 0) = true) /\
            ((c <? p) = true -> (g <=? 0) = true).
Proof.
  intros Hk Hc Hp Hpos. rewrite (trend_entry _ _ key field Hk), Hc, Hp. cbn.
  eexists; split; [reflexivity|]. split.
  - apply (TrendFacts.growth_rise c p Hpos).
  - apply (TrendFacts.growth_fall c p Hpos).
Qed.

Lemma trend_sign_witness :
  (In ("profitGrowth", netIncome) trendFields /\ Sign.positive 50000) /\
  exists g, calculateTrendAnalysis (object [(netIncome, 40000)])
              (object [(netIncome, 50000)]) !! "profitGrowth" = Some g /\
            ((40000 >? 50000) = true -> (g >=? 0) = true) /\
            ((40000 <? 50000) = true -> (g <=? 0) = true).
Proof.
  split; [split; [right; left; reflexivity|split; reflexivity]|].
  apply (trend_sign (object [(netIncome, 40000)])
           (object [(netIncome, 50000)]) "profitGrowth" netIncome
           40000 50000);
    first [reflexivity | right; left; reflexivity | split; reflexivity].
Defined.

(** ** The analysis router: ratios, then score and risk *)

Module AnalysisRouter.

(** What an awaited database call did: it returned a value or it threw. *)
Inductive Awaited (A : Type) :=
  | Returned (a : A)
  | Threw.
Arguments Returned {A} a.
Arguments Threw {A}.

(** The columns of a business row and the fields of [ctx.user] that the
    procedure reads. *)
Record Business := { ownerId : Z }.
Record User := { id : Z; role : string }.

Inductive TRPCErrorCode :=
  BAD_REQUEST | NOT_FOUND | FORBIDDEN | INTERNAL_SERVER_ERROR.

(** [z.number().optional()] on one metric: an absent field passes, and a
    number passes unless it is NaN.  (Releases of zod from 4 on also refuse
    the infinities; the results below that assume valid metrics assume
    finite ones, which pass either way.) *)
Definition z_number_optional (v : JS.value) : bool :=
  match v with
  | Some x => negb (is_nan x)
  | None => true
  end.

(** The fields of the [metrics] object of the input schema. *)
Definition metricsSchema : list FinancialMetrics :=
  [assets; currentAssets; inventory; liabilities; currentLiabilities;
   equity; revenue; netIncome; operatingIncome; cogs; operatingExpenses;
   interestExpense; taxExpense; cashFlow; accountsReceivable;
   accountsPayable; debt; shortTermDebt; longTermDebt].

(** Whether the [metrics] of an input pass the schema. *)
Definition parseMetrics (metrics : Partial FinancialMetrics) : bool :=
  forallb (fun g => z_number_optional (metrics g)) metricsSchema.

(** The object returned by the [runAnalysis] mutation. *)
Record AnalysisOutput := {
  creditScore : float;
  creditTier : string;
  riskTier : string;
  ratios : Partial CalculatedRatios;
  riskFactors : list string
}.

End AnalysisRouter.

(** The [runAnalysis] mutation for an authenticated caller: the input
    schema, then the handler.  Metrics that do not pass the schema are
    refused with BAD_REQUEST before the handler runs; the two ids of the
    input are taken to be numbers.  The two database calls that can reject
    are inputs: [business] is what [await getBusinessById(...)] did,
    [insert] what [await createFinancialAnalysis(...)] did.  The row handed
    to the insert is not modelled, and [logUserAction] swallows its own
    errors.  The result is the error thrown or the object returned. *)
Definition runAnalysis (user : AnalysisRouter.User)
    (business : AnalysisRouter.Awaited (option AnalysisRouter.Business))
    (insert : AnalysisRouter.Awaited unit)
    (metrics : Partial FinancialMetrics)
  : AnalysisRouter.TRPCErrorCode + AnalysisRouter.AnalysisOutput :=
  if negb (AnalysisRouter.parseMetrics metrics)
  then inl AnalysisRouter.BAD_REQUEST
  else
  match business with
  | AnalysisRouter.Threw => inl AnalysisRouter.INTERNAL_SERVER_ERROR
  | AnalysisRouter.Returned None => inl AnalysisRouter.NOT_FOUND
  | AnalysisRouter.Returned (Some business) =>
      if negb (Z.eqb (AnalysisRouter.ownerId business)
                 (AnalysisRouter.id user))
         && negb (String.eqb (AnalysisRouter.role user) "admin")
      then inl AnalysisRouter.FORBIDDEN
      else
        (* Calculate financial ratios *)
        let ratios := calculateFinancialRatios metrics in
        (* Calculate credit score *)
        let creditScoreResult :=
          calculateCreditScore ratios metrics None None in
        (* Assess risks *)
        let riskAssessment := assessFinancialRisks ratios metrics in
        (* Create analysis record *)
        match insert with
        | AnalysisRouter.Threw => inl AnalysisRouter.INTERNAL_SERVER_ERROR
        | AnalysisRouter.Returned _ =>
            inr {| AnalysisRouter.creditScore := score creditScoreResult;
                   AnalysisRouter.creditTier := tier creditScoreResult;
                   AnalysisRouter.riskTier := riskTier riskAssessment;
                   AnalysisRouter.ratios := ratios;
                   AnalysisRouter.riskFactors :=
                     riskFactors riskAssessment |}
        end
  end.


(** A metric that is present is nonnegative. *)
Definition nonneg_metric (metrics : Partial FinancialMetrics)
    (g : FinancialMetrics) : Prop :=
  when_present Sign.nonneg (metrics g).

Module PipelineFacts.
Import IEEE IEEEFacts Sign SignFacts.

(** A nonnegative finite number over a nonnegative divisor that is not
    zero. *)
Lemma div_nonneg_truthy x d :
  nonneg x -> finite x -> nonneg d -> JS.truthy d = true -> nonneg (x / d).
Proof.
  rewrite !nonneg_spec, finite_spec, truthy_spec, FloatAxioms.div_spec.
  intros Hx Hf Hd [[s E]|(s & m & e & E)]; rewrite E in Hd |- *;
    destruct s; try contradiction.
  - destruct (Prim2SF x) as [sx|[]| |[] mx ex]; try contradiction; exact I.
  - apply SFdiv_nonneg, Hx.
Qed.

Lemma or_nonneg x d : nonneg x -> nonneg d -> nonneg (x || d).
Proof. intros Hx Hd. unfold JS.or. destruct (JS.truthy x); assumption. Qed.

Lemma or_undef_nonneg v d :
  when_present nonneg v -> nonneg d -> nonneg (JS.or_undef v d).
Proof.
  destruct v as [x|]; simpl; [apply or_nonneg|auto].
Qed.

Lemma nonneg_not_negative x : nonneg x -> (x <? 0) = false.
Proof.
  rewrite nonneg_spec, FloatAxioms.ltb_spec.
  change (Prim2SF 0) with (S754_zero false).
  destruct (Prim2SF x) as [s|[]| |[] m e]; try contradiction; reflexivity.
Qed.

(** A message is in the list after a rule exactly when it was there
    before or the rule fired with that message. *)
Lemma flag_elem_of cond message pts st (x : string) :
  x ∈ (flag cond message pts st).1 <->
  x ∈ st.1 \/ (cond = true /\ x = message).
Proof.
  unfold flag. destruct cond; cbn [fst].
  - rewrite elem_of_app, list_elem_of_singleton. intuition.
  - intuition discriminate.
Qed.

End PipelineFacts.

(** None of the metrics behind return on equity, debt service coverage
    and asset turnover is negative. *)
Definition no_negative_inputs (metrics : Partial FinancialMetrics) : Prop :=
  Forall (nonneg_metric metrics)
    [netIncome; equity; revenue; assets; operatingIncome;
     shortTermDebt; longTermDebt; interestExpense].

(** A message is reported exactly when the rule that carries it fired. *)
Lemma riskFactors_fired
    (ratios : Partial CalculatedRatios) (metrics : Partial FinancialMetrics) :
  let reported m := m ∈ riskFactors (assessFinancialRisks ratios metrics) in
  (reported "Negative profit margin: Business operating at a loss" <->
   defined_and (ratios profitMargin) (fun x => x <? 0) = true) /\
  (reported "Negative ROE: Shareholders' equity is decreasing" <->
   defined_and (ratios returnOnEquity) (fun x => x <? 0) = true).
Proof.
  unfold assessFinancialRisks. cbv zeta.
  match goal with
  | |- context [let '(_, _) := ?st in _] => destruct st as [fs sc] eqn:E
  end.
  cbn [riskFactors]. apply (f_equal fst) in E. cbn [fst] in E. subst fs.
  rewrite !PipelineFacts.flag_elem_of. cbn [fst].
  rewrite !elem_of_nil.
  split; (split; [intros H|intros H; tauto]);
    repeat match goal with
    | H : _ \/ _ |- _ => destruct H as [H|H]
    | H : _ /\ _ |- _ => destruct H as [? H]
    end; try contradiction; try discriminate H; assumption.
Qed.

(** Cases on the metrics of a goal, keeping what is known of each. *)
Ltac metric_cases Hfin :=
  repeat match goal with
  | H : nonneg_metric ?m ?g |- context [?m ?g] =>
      let E := fresh "E" in
      unfold nonneg_metric in H;
      destruct (m g) eqn:E; cbn [when_present] in H; [apply Hfin in E|]
  end.

(** What [runAnalysis] returns, when it returns, for given metrics. *)
Lemma runAnalysis_returns user business insert metrics out :
  runAnalysis user business insert metrics = inr out ->
  AnalysisRouter.creditScore out =
    score (calculateCreditScore (calculateFinancialRatios metrics) metrics
             None None) /\
  AnalysisRouter.riskFactors out =
    riskFactors
      (assessFinancialRisks (calculateFinancialRatios metrics) metrics).
Proof.
  unfold runAnalysis. cbv zeta.
  generalize (calculateCreditScore (calculateFinancialRatios metrics)
                metrics None None) as cs.
  generalize (assessFinancialRisks (calculateFinancialRatios metrics)
                metrics) as ra.
  generalize (calculateFinancialRatios metrics) as rs.
  intros rs ra cs.
  destruct (AnalysisRouter.parseMetrics metrics); try discriminate.
  cbn [negb].
  destruct business as [[b|]|]; try discriminate.
  destruct (_ && _)%bool; try discriminate.
  destruct insert; try discriminate.
  intros [= <-]. split; reflexivity.
Qed.

(** The metrics pass the schema exactly when none that is present is
    NaN. *)
Lemma parseMetrics_spec (metrics : Partial FinancialMetrics) :
  AnalysisRouter.parseMetrics metrics = true <->
  forall g x, metrics g = Some x -> is_nan x = false.
Proof.
  unfold AnalysisRouter.parseMetrics. rewrite forallb_forall. split.
  - intros H g x E.
    assert (Hin : In g AnalysisRouter.metricsSchema)
      by (destruct g; cbn; tauto).
    specialize (H g Hin). unfold AnalysisRouter.z_number_optional in H.
    rewrite E in H. apply negb_true_iff in H. exact H.
  - intros H g _. unfold AnalysisRouter.z_number_optional.
    destruct (metrics g) as [x|] eqn:E; [|reflexivity].
    rewrite (H g x E). reflexivity.
Qed.

(** Finite metrics pass the schema. *)
Lemma parseMetrics_finite (metrics : Partial FinancialMetrics) :
  all_finite metrics -> AnalysisRouter.parseMetrics metrics = true.
Proof.
  intros Hfin. apply parseMetrics_spec. intros g x E.
  specialize (Hfin g x E). unfold Sign.finite, is_finite in Hfin.
  apply negb_true_iff, orb_false_iff in Hfin. apply Hfin.
Qed.

(** A NaN among the metrics does not. *)
Lemma parseMetrics_nan (metrics : Partial FinancialMetrics) g x :
  metrics g = Some x -> is_nan x = true ->
  AnalysisRouter.parseMetrics metrics = false.
Proof.
  intros E Hnan. destruct (AnalysisRouter.parseMetrics metrics) eqn:P;
    [|reflexivity].
  rewrite parseMetrics_spec in P. rewrite (P g x E) in Hnan.
  discriminate Hnan.
Qed.

(** X16. Ratios, then score, as [runAnalysis] chains them: for finite
    metrics of which net income, equity, revenue, assets, operating income
    and the three debt terms are not negative, a credit score that is
    returned is not negative, provided the cash conversion cycle, if
    computed, is not NaN. *)
Theorem runAnalysis_score_nonnegative
    (user : AnalysisRouter.User)
    (business : AnalysisRouter.Awaited (option AnalysisRouter.Business))
    (insert : AnalysisRouter.Awaited unit)
    (metrics : Partial FinancialMetrics) (out : AnalysisRouter.AnalysisOutput) :
  runAnalysis user business insert metrics = inr out ->
  all_finite metrics ->
  no_negative_inputs metrics ->
  when_present Sign.not_nan
    (calculateFinancialRatios metrics cashConversionCycle) ->
  Sign.nonneg (AnalysisRouter.creditScore out).
Proof.
  intros Hout Hfin Hsigns Hccc.
  apply runAnalysis_returns in Hout as [-> _].
  unfold no_negative_inputs in Hsigns.
  repeat match type of Hsigns with
  | Forall _ (_ :: _) =>
      let H := fresh "Hs" in apply Forall_cons in Hsigns as [H Hsigns]
  end.
  apply credit_factors_nonneg;
    try (apply finite_metrics_ratio_no_nan; [exact Hfin|discriminate]);
    try exact Hccc; try reflexivity;
    rewrite calculateFinancialRatios_formula; cbn [ratio_formula].
  - metric_cases Hfin; cbn; try exact I.
    apply SignFacts.mul_nonneg; [|split; reflexivity].
    apply SignFacts.div_nonneg; [assumption|].
    apply SignFacts.or_one_positive; assumption.
  - metric_cases Hfin; cbn; try exact I.
    all: apply PipelineFacts.div_nonneg_truthy;
      [assumption|assumption| |apply or_one_truthy].
    all: apply PipelineFacts.or_nonneg; [|reflexivity].
    all: repeat apply SignFacts.add_nonneg;
      first [apply PipelineFacts.or_nonneg; [assumption|reflexivity]
            |reflexivity].
  - metric_cases Hfin; cbn; try exact I.
    apply SignFacts.div_nonneg; [assumption|].
    apply SignFacts.or_one_positive; assumption.
Qed.

(** Proves [all_finite] and sign conditions of an object literal. *)
Ltac literal_metrics :=
  first
    [ exact I
    | reflexivity
    | (intros g x; destruct g; cbn; intros [= <-]; reflexivity)
    | (repeat apply Forall_cons_2; try apply Forall_nil_2;
       unfold nonneg_metric; cbn; first [exact I | reflexivity]) ].

(** A caller who owns the business, and database calls that succeed. *)
Definition owner : AnalysisRouter.User :=
  {| AnalysisRouter.id := 7; AnalysisRouter.role := "user" |}.
Definition owned : AnalysisRouter.Awaited (option AnalysisRouter.Business) :=
  AnalysisRouter.Returned (Some {| AnalysisRouter.ownerId := 7 |}).
Definition saved : AnalysisRouter.Awaited unit := AnalysisRouter.Returned tt.

Lemma runAnalysis_score_nonnegative_witness :
  let metrics : Partial FinancialMetrics :=
    object [(netIncome, 50000); (revenue, 500000); (assets, 1000000);
            (equity, 500000)] in
  exists out,
    runAnalysis owner owned saved metrics = inr out /\
    all_finite metrics /\ no_negative_inputs metrics /\
    Sign.nonneg (AnalysisRouter.creditScore out).
Proof.
  cbv zeta.
  assert (Hfin : all_finite
            (object [(netIncome, 50000); (revenue, 500000);
                     (assets, 1000000); (equity, 500000)]))
    by literal_metrics.
  assert (Hs : no_negative_inputs
            (object [(netIncome, 50000); (revenue, 500000);
                     (assets, 1000000); (equity, 500000)]))
    by literal_metrics.
  destruct (runAnalysis owner owned saved
              (object [(netIncome, 50000); (revenue, 500000);
                       (assets, 1000000); (equity, 500000)]))
    as [code|out] eqn:Hrun; [vm_compute in Hrun; discriminate Hrun|].
  exists out. split; [reflexivity|]. split; [exact Hfin|]. split; [exact Hs|].
  apply (runAnalysis_score_nonnegative owner owned saved
           (object [(netIncome, 50000); (revenue, 500000);
                    (assets, 1000000); (equity, 500000)])
           out Hrun Hfin Hs).
  exact I.
Defined.

(** X17. Ratios, then risks, as [runAnalysis] chains them: for finite
    metrics with net income, revenue and equity not negative, neither
    "Negative profit margin" nor "Negative ROE" is among the risk factors
    returned. *)
Theorem runAnalysis_no_loss_flags
    (user : AnalysisRouter.User)
    (business : AnalysisRouter.Awaited (option AnalysisRouter.Business))
    (insert : AnalysisRouter.Awaited unit)
    (metrics : Partial FinancialMetrics) (out : AnalysisRouter.AnalysisOutput) :
  runAnalysis user business insert metrics = inr out ->
  all_finite metrics ->
  nonneg_metric metrics netIncome ->
  nonneg_metric metrics revenue ->
  nonneg_metric metrics equity ->
  ("Negative profit margin: Business operating at a loss"
     ∉ AnalysisRouter.riskFactors out) /\
  ("Negative ROE: Shareholders' equity is decreasing"
     ∉ AnalysisRouter.riskFactors out).
Proof.
  intros Hout Hfin Hni Hrev Heq.
  apply runAnalysis_returns in Hout as [_ ->].
  destruct (riskFactors_fired (calculateFinancialRatios metrics) metrics)
    as [Hpm Hroe].
  rewrite Hpm, Hroe, !calculateFinancialRatios_formula.
  cbn [ratio_formula].
  split; metric_cases Hfin; cbn; try discriminate;
    rewrite PipelineFacts.nonneg_not_negative; try discriminate;
    (apply SignFacts.mul_nonneg; [|split; reflexivity]);
    (apply SignFacts.div_nonneg; [assumption|]);
    apply SignFacts.or_one_positive; assumption.
Qed.

Lemma runAnalysis_no_loss_flags_witness :
  let metrics : Partial FinancialMetrics :=
    object [(netIncome, 50000); (revenue, 500000); (equity, 500000)] in
  exists out,
    runAnalysis owner owned saved metrics = inr out /\
    (all_finite metrics /\ nonneg_metric metrics netIncome /\
     nonneg_metric metrics revenue /\ nonneg_metric metrics equity) /\
    ("Negative profit margin: Business operating at a loss"
       ∉ AnalysisRouter.riskFactors out) /\
    ("Negative ROE: Shareholders' equity is decreasing"
       ∉ AnalysisRouter.riskFactors out).
Proof.
  cbv zeta.
  assert (Hfin : all_finite
            (object [(netIncome, 50000); (revenue, 500000);
                     (equity, 500000)])) by literal_metrics.
  destruct (runAnalysis owner owned saved
              (object [(netIncome, 50000); (revenue, 500000);
                       (equity, 500000)]))
    as [code|out] eqn:Hrun; [vm_compute in Hrun; discriminate Hrun|].
  exists out. split; [reflexivity|].
  split; [split; [exact Hfin|repeat split]|].
  apply (runAnalysis_no_loss_flags owner owned saved
           (object [(netIncome, 50000); (revenue, 500000);
                    (equity, 500000)])
           out Hrun Hfin);
    reflexivity.
Defined.

(** X18. Metrics with a NaN among them are refused with BAD_REQUEST,
    whoever calls and whatever the database does.  For finite metrics,
    [runAnalysis] returns an analysis exactly when the business was found,
    the caller owns it or is an admin, and the record was written; a caller
    who is neither owner nor admin gets FORBIDDEN whatever the insert would
    have done, and a business that is not found gives NOT_FOUND. *)
Theorem runAnalysis_access
    (user : AnalysisRouter.User)
    (business : AnalysisRouter.Awaited (option AnalysisRouter.Business))
    (insert : AnalysisRouter.Awaited unit)
    (metrics : Partial FinancialMetrics) :
  let result := runAnalysis user business insert metrics in
  ((exists g x, metrics g = Some x /\ is_nan x = true) ->
   result = inl AnalysisRouter.BAD_REQUEST) /\
  (all_finite metrics ->
   ((exists out, result = inr out) <->
    exists b, business = AnalysisRouter.Returned (Some b) /\
              (AnalysisRouter.ownerId b = AnalysisRouter.id user \/
               AnalysisRouter.role user = "admin") /\
              insert = AnalysisRouter.Returned tt) /\
   (forall b, business = AnalysisRouter.Returned (Some b) ->
              AnalysisRouter.ownerId b <> AnalysisRouter.id user ->
              AnalysisRouter.role user <> "admin" ->
              result = inl AnalysisRouter.FORBIDDEN) /\
   (business = AnalysisRouter.Returned None ->
    result = inl AnalysisRouter.NOT_FOUND)).
Proof.
  intros result. subst result. unfold runAnalysis. cbv zeta.
  generalize (calculateCreditScore (calculateFinancialRatios metrics)
                metrics None None) as cs.
  generalize (assessFinancialRisks (calculateFinancialRatios metrics)
                metrics) as ra.
  generalize (calculateFinancialRatios metrics) as rs.
  intros rs ra cs. split.
  { intros (g & x & E & Hnan).
    rewrite (parseMetrics_nan metrics g x E Hnan). reflexivity. }
  intros Hfin. rewrite (parseMetrics_finite metrics Hfin). cbn [negb].
  destruct business as [[b|]|].
  - destruct (Z.eqb_spec (AnalysisRouter.ownerId b) (AnalysisRouter.id user))
      as [Ho|Ho];
      destruct (String.eqb_spec (AnalysisRouter.role user) "admin")
        as [Ha|Ha]; cbn [negb andb];
      destruct insert as [[]|];
      (split; [split|split]);
      try (intros [out [=]]);
      try (intros (b' & [= <-] & [?|?] & ?)); try contradiction;
      try discriminate;
      try (intros b' [= <-] ? ?; try contradiction; reflexivity);
      try (intros [=]);
      eauto 10.
  - split; [split|split]; try (intros [out [=]]);
      try (intros (b' & [=] & _)); try (intros b' [=]); reflexivity.
  - split; [split|split]; try (intros [out [=]]);
      try (intros (b' & [=] & _)); try (intros b' [=]); intros [=].
Qed.

(** The four outcomes on concrete requests. *)
Example runAnalysis_outcomes :
  let metrics : Partial FinancialMetrics :=
    object [(netIncome, 50000); (revenue, 500000); (equity, 500000)] in
  let stranger : AnalysisRouter.User :=
    {| AnalysisRouter.id := 8; AnalysisRouter.role := "user" |} in
  let admin : AnalysisRouter.User :=
    {| AnalysisRouter.id := 8; AnalysisRouter.role := "admin" |} in
  runAnalysis owner owned saved (object [(revenue, nan)])
  = inl AnalysisRouter.BAD_REQUEST /\
  runAnalysis stranger owned saved (object [(revenue, nan)])
  = inl AnalysisRouter.BAD_REQUEST /\
  runAnalysis stranger owned saved metrics = inl AnalysisRouter.FORBIDDEN /\
  runAnalysis owner (AnalysisRouter.Returned None) saved metrics
  = inl AnalysisRouter.NOT_FOUND /\
  runAnalysis owner owned AnalysisRouter.Threw metrics
  = inl AnalysisRouter.INTERNAL_SERVER_ERROR /\
  match runAnalysis admin owned saved metrics with
  | inr out =>
      AnalysisRouter.creditTier out = "very_poor" /\
      AnalysisRouter.riskTier out = "very_low" /\
      AnalysisRouter.riskFactors out = []
  | inl _ => False
  end.
Proof. vm_compute. auto 10. Qed.
